(** * modern-ecommerce-server: the payment server and its routes

    A shallow embedding of the two Express entry points of the repository
    (the server with the auth routes, and the server with the Stripe
    webhook) and of [routes/authRoutes.js].

    JavaScript values are an inductive type; numbers are exact rationals
    extended with NaN and the two infinities (every finite double is a
    rational, comparison with 50 and [Math.round] are exact on doubles, and
    -0 is identified with 0).  Strings are sequences of 8-bit characters.
    Objects are association lists in property order.  The request bodies
    are parsed JSON, so no value is a function.  What the repository
    delegates to libraries (string/number
    conversion of the engine, [toLowerCase], the Stripe SDK, the clock,
    Express path matching, the auth controller and guard) is taken as a
    parameter. *)

From Stdlib Require Import String Ascii List Bool ZArith QArith Qround Lia.
From Stdlib Require Import DecimalString.
Import ListNotations.
Open Scope string_scope.
Local Set Warnings "-register-all".

(* ================================================================== *)
(** ** JavaScript values *)

Module Js.

Inductive number : Type :=
| NaN
| Infinity (negative : bool)
| Finite (q : Q).

Inductive value : Type :=
| VUndefined
| VNull
| VBool (b : bool)
| VNum (n : number)
| VStr (s : string)
| VArr (elems : list value)
| VObj (props : list (string * value)).

(** An object: own enumerable properties, in insertion order. *)
Definition obj : Type := list (string * value).

Definition num_of_Z (z : Z) : number := Finite (inject_Z z).

(** [o.k]: the value of property [k], [undefined] when there is none. *)
Fixpoint obj_get (k : string) (o : obj) : value :=
  match o with
  | [] => VUndefined
  | (k', v) :: o' => if String.eqb k k' then v else obj_get k o'
  end.

Fixpoint obj_has (k : string) (o : obj) : bool :=
  match o with
  | [] => false
  | (k', _) :: o' => if String.eqb k k' then true else obj_has k o'
  end.

(** [o[k] = v]: an existing property keeps its place and takes the new
    value, a new property is appended. *)
Fixpoint obj_set (k : string) (v : value) (o : obj) : obj :=
  match o with
  | [] => [(k, v)]
  | (k', v') :: o' =>
      if String.eqb k k' then (k', v) :: o' else (k', v') :: obj_set k v o'
  end.

(** [v.k] for a property name that is neither an index nor inherited
    (as [type], [data], [object], [id], [amount]): [None] when [v] is
    [null] or [undefined], where the access throws a TypeError; an object
    gives its property, any other value [undefined]. *)
Definition get_prop (v : value) (k : string) : option value :=
  match v with
  | VUndefined | VNull => None
  | VObj o => Some (obj_get k o)
  | _ => Some VUndefined
  end.

(** [v === s] for a string literal [s]. *)
Definition is_str (v : value) (s : string) : bool :=
  match v with
  | VStr t => String.eqb t s
  | _ => false
  end.

(** Decimal text of an array index. *)
Definition index_key (i : nat) : string :=
  NilEmpty.string_of_uint (Nat.to_uint i).

Fixpoint indexed {A} (i : nat) (l : list A) : list (string * A) :=
  match l with
  | [] => []
  | x :: l' => (index_key i, x) :: indexed (S i) l'
  end.

Fixpoint chars (s : string) : list value :=
  match s with
  | EmptyString => []
  | String c s' => VStr (String c EmptyString) :: chars s'
  end.

(** Own enumerable properties copied by a spread [{...v}]: those of an
    object, the indices of an array or of a string, none for the other
    primitives (and none for [null] and [undefined]). *)
Definition own_props (v : value) : obj :=
  match v with
  | VObj o => o
  | VArr l => indexed 0 l
  | VStr s => indexed 0 (chars s)
  | _ => []
  end.

(** [{...v}] evaluated into an initial object [acc]. *)
Definition spread_into (acc : obj) (v : value) : obj :=
  fold_left (fun o kv => obj_set (fst kv) (snd kv) o) (own_props v) acc.

(** ToBoolean. *)
Definition ToBoolean (v : value) : bool :=
  match v with
  | VUndefined | VNull => false
  | VBool b => b
  | VNum NaN => false
  | VNum (Infinity _) => true
  | VNum (Finite q) => negb (Qeq_bool q 0)
  | VStr s => negb (String.eqb s "")
  | VArr _ | VObj _ => true
  end.

(** Property names all different, as in any object. *)
Fixpoint distinct_keys (o : obj) : bool :=
  match o with
  | [] => true
  | (k, _) :: o' => negb (obj_has k o') && distinct_keys o'
  end.

(** [x < y] on numbers; a comparison with NaN is false. *)
Definition number_lt (x y : number) : bool :=
  match x, y with
  | NaN, _ | _, NaN => false
  | Infinity true, Infinity true => false
  | Infinity true, _ => true
  | _, Infinity true => false
  | Infinity false, _ => false
  | Finite _, Infinity false => true
  | Finite p, Finite q =>
      match Qcompare p q with Lt => true | _ => false end
  end.

(** [x >= y] on numbers. *)
Definition number_ge (x y : number) : bool :=
  match x, y with
  | NaN, _ | _, NaN => false
  | _, _ => negb (number_lt x y)
  end.

(** [Math.round]: the nearest integer, halves towards +Infinity. *)
Definition Math_round (x : number) : number :=
  match x with
  | Finite q => num_of_Z (Qfloor (q + (1 # 2)))
  | _ => x
  end.

(** The conversions between strings and numbers and the case mapping are
    the engine's. *)
Class Engine : Type := {
  StringToNumber : string -> number;
  NumberToString : number -> string;
  toLowerCase : string -> string;
  (** text of the TypeError raised when the named operation fails on a
      value *)
  type_error_text : string -> value -> string;
  (** the empty string converts to 0 *)
  StringToNumber_empty : StringToNumber "" = Finite 0
}.

Section Conversions.
Context {engine : Engine}.

(** ToString, [None] when the conversion throws.  An array joins its
    elements with commas, [null] and [undefined] elements giving the empty
    text.  An object parsed from JSON inherits [toString], unless it has a
    property of that name: this one is not a function, and the conversion
    to a primitive throws a TypeError. *)
Fixpoint ToString (v : value) : option string :=
  match v with
  | VUndefined => Some "undefined"
  | VNull => Some "null"
  | VBool true => Some "true"
  | VBool false => Some "false"
  | VNum n => Some (NumberToString n)
  | VStr s => Some s
  | VArr l =>
      (fix join (l : list value) : option string :=
         match l with
         | [] => Some ""
         | e :: l' =>
             match match e with
                   | VUndefined | VNull => Some ""
                   | _ => ToString e
                   end
             with
             | None => None
             | Some t =>
                 match l' with
                 | [] => Some t
                 | _ :: _ =>
                     match join l' with
                     | None => None
                     | Some rest => Some (t ++ "," ++ rest)
                     end
                 end
             end
         end) l
  | VObj o => if obj_has "toString" o then None else Some "[object Object]"
  end.

(** ToNumber (through ToPrimitive for arrays and objects), [None] when
    the conversion throws. *)
Definition ToNumber (v : value) : option number :=
  match v with
  | VUndefined => Some NaN
  | VNull => Some (num_of_Z 0)
  | VBool true => Some (num_of_Z 1)
  | VBool false => Some (num_of_Z 0)
  | VNum n => Some n
  | VStr s => Some (StringToNumber s)
  | VArr _ | VObj _ => option_map StringToNumber (ToString v)
  end.

(** [v < n] and [v >= n] for a number [n]. *)
Definition js_lt (v : value) (n : number) : option bool :=
  option_map (fun x => number_lt x n) (ToNumber v).

Definition js_ge (v : value) (n : number) : option bool :=
  option_map (fun x => number_ge x n) (ToNumber v).

End Conversions.

(** What [JSON.stringify] keeps of a value: properties whose value is
    [undefined] are dropped, [undefined] array elements and the numbers
    that are not finite become [null]. *)
Fixpoint to_json (v : value) : value :=
  match v with
  | VNum NaN | VNum (Infinity _) => VNull
  | VArr l =>
      VArr ((fix go (l : list value) : list value :=
               match l with
               | [] => []
               | e :: l' =>
                   match e with
                   | VUndefined => VNull
                   | _ => to_json e
                   end :: go l'
               end) l)
  | VObj o =>
      VObj ((fix go (o : list (string * value)) : list (string * value) :=
               match o with
               | [] => []
               | (k, e) :: o' =>
                   match e with
                   | VUndefined => go o'
                   | _ => (k, to_json e) :: go o'
                   end
               end) o)
  | _ => v
  end.

End Js.

(* ================================================================== *)
(** ** The process, the payment provider and the effects of a handler *)

Module Effects.
Import Js.

(** An Error object as the handlers read it: [type], the string the
    Stripe SDK gives its errors and that other errors do not have, and
    [message]. *)
Record error_obj : Type := {
  err_type : option string;
  err_message : option string
}.

(** A TypeError of the engine carries no [type] property. *)
Definition TypeError (text : string) : error_obj :=
  {| err_type := None; err_message := Some text |}.

(** [error.type === s] *)
Definition type_is (error : error_obj) (s : string) : bool :=
  match err_type error with
  | Some t => String.eqb t s
  | None => false
  end.

(** A property that may be missing, as a value. *)
Definition opt_str (s : option string) : value :=
  match s with
  | Some t => VStr t
  | None => VUndefined
  end.

(** The argument of [stripe.paymentIntents.create]. *)
Record create_params : Type := {
  amount : number;
  currency : string;
  payment_method_types : list string;
  metadata : obj;
  description : string
}.

(** What the handlers read of a created PaymentIntent. *)
Record payment_intent : Type := {
  id : string;
  client_secret : string
}.

(** The Stripe SDK: intent creation resolves to an intent or rejects with
    an error; [webhooks.constructEvent] returns the verified event, which
    is the payload as parsed from JSON, or throws. *)
Class Stripe : Type := {
  paymentIntents_create : create_params -> error_obj + payment_intent;
  webhooks_constructEvent : obj -> value -> string -> error_obj + value
}.

(** [process.env] and the clock ([new Date().toISOString()]). *)
Class Process : Type := {
  getenv : string -> option string;
  Date_toISOString : string
}.

(** One console line, by its template and what is interpolated in it:
    the amount of the payment handler as the value it is, the texts of the
    webhook as converted, and the amount of a succeeded payment as the
    number it converts to (the division by 100 and [toFixed(2)] are not
    modelled). *)
Inductive line : Type :=
| Creating_payment_intent (amount : value)
| Payment_intent_created (id : string)
| Stripe_Error (e : error_obj)
| Webhook_received (type : string)
| Webhook_signature_verification_failed (message : option string)
| Payment_succeeded (id : string) (amount : number)
| Payment_failed (id : string)
| Payment_method_attached (id : string)
| Unhandled_event_type (type : string)
| Server_Error (e : error_obj).

(** The state a request can touch: the console, the requests sent to the
    payment provider, and the database behind the auth controller. *)
Record world (DB : Type) : Type := {
  console : list line;
  provider_requests : list create_params;
  database : DB
}.
Arguments console {DB} _.
Arguments provider_requests {DB} _.
Arguments database {DB} _.

(** The world after more console lines. *)
Definition logged {DB : Type} (w : world DB) (lines : list line) : world DB :=
  {| console := console w ++ lines;
     provider_requests := provider_requests w;
     database := database w |}.

Inductive payload : Type :=
| Json (v : value)
| Text (s : string).

Record response : Type := {
  status : nat;
  sent : payload
}.

(** [res.status(st).json(v)] and [res.status(st).send(text)]. *)
Definition res_json (st : nat) (v : value) : response :=
  {| status := st; sent := Json (to_json v) |}.
Definition res_send (st : nat) (text : string) : response :=
  {| status := st; sent := Text text |}.

(** The JSON answer [{error: text}] with a status. *)
Definition error_answer (st : nat) (text : string) : response :=
  {| status := st; sent := Json (VObj [("error", VStr text)]) |}.

(** Computations of a handler body: state passing with exceptions. *)
Inductive result (A : Type) : Type :=
| Ok (a : A)
| Throw (e : error_obj).
Arguments Ok {A} _.
Arguments Throw {A} _.

Definition M (DB A : Type) : Type := world DB -> result A * world DB.

Section Monad.
Context {DB : Type}.

Definition ret {A} (a : A) : M DB A := fun w => (Ok a, w).

Definition bind {A B} (c : M DB A) (k : A -> M DB B) : M DB B :=
  fun w => match c w with
           | (Ok a, w') => k a w'
           | (Throw e, w') => (Throw e, w')
           end.

Definition throw {A} (e : error_obj) : M DB A := fun w => (Throw e, w).

(** [try { c } catch (error) { h error }] *)
Definition try_catch {A} (c : M DB A) (h : error_obj -> M DB A) : M DB A :=
  fun w => match c w with
           | (Ok a, w') => (Ok a, w')
           | (Throw e, w') => h e w'
           end.

Definition console_write (l : line) : M DB unit :=
  fun w => (Ok tt, {| console := console w ++ [l];
                      provider_requests := provider_requests w;
                      database := database w |}).

(** [await stripe.paymentIntents.create(params)]: the request is sent,
    and a rejection is thrown at the [await]. *)
Definition stripe_create `{Stripe} (params : create_params) : M DB payment_intent :=
  fun w =>
    let w' := {| console := console w;
                 provider_requests := provider_requests w ++ [params];
                 database := database w |} in
    match paymentIntents_create params with
    | inr intent => (Ok intent, w')
    | inl e => (Throw e, w')
    end.

Definition stripe_constructEvent `{Stripe}
    (payload : obj) (sig : value) (secret : string) : M DB value :=
  match webhooks_constructEvent payload sig secret with
  | inr ev => ret ev
  | inl e => throw e
  end.

(** An operation of the engine on a value, throwing a TypeError when it
    has no result. *)
Definition js_eval `{Engine} {A} (op : string) (v : value) (r : option A) : M DB A :=
  match r with
  | Some a => ret a
  | None => throw (TypeError (type_error_text op v))
  end.

(** [v.toLowerCase()]: only a string has the method. *)
Definition call_toLowerCase `{Engine} (v : value) : M DB string :=
  js_eval "toLowerCase" v
    match v with
    | VStr s => Some (toLowerCase s)
    | _ => None
    end.

End Monad.

Declare Scope js_scope.
Delimit Scope js_scope with js.
Notation "x <- c ;; k" := (bind c (fun x => k))
  (at level 61, c at next level, right associativity) : js_scope.
Notation "c ;; k" := (bind c (fun _ => k))
  (at level 61, right associativity) : js_scope.

End Effects.

(* ================================================================== *)
(** ** Express: requests, middleware and the layer stack *)

Module Express.
Import Js Effects.

(** A request as the handlers see it.  [express.json()] (Express 4) has
    left an object in [body]: the parsed JSON object, the indices of a JSON
    array, or the empty object; header names are in lower case. *)
Record request : Type := {
  method : string;
  path : string;
  headers : obj;
  body : obj
}.

Definition with_path (p : string) (r : request) : request :=
  {| method := method r; path := p; headers := headers r; body := body r |}.

(** What a middleware or handler does with a request: [next()],
    [next(err)] (or a synchronous throw), a response, or neither (an async
    handler whose promise is rejected leaves the request unanswered). *)
Inductive step : Type :=
| Next (req : request)
| NextError (e : error_obj) (req : request)
| Reply (r : response)
| Unanswered.

Section Stack.
Context {DB : Type}.

Definition handler : Type := request -> world DB -> step * world DB.
Definition error_handler : Type :=
  error_obj -> request -> world DB -> step * world DB.

(** A handler with the name it has in the source, recorded when the stack
    invokes it. *)
Record named : Type := {
  name : string;
  run : handler
}.

(** The route handlers of this repository are async functions that answer
    with [res]: their result is the response, and an exception that leaves
    the function answers nothing. *)
Definition answering (c : request -> M DB response) : handler :=
  fun req w =>
    match c req w with
    | (Ok r, w') => (Reply r, w')
    | (Throw _, w') => (Unanswered, w')
    end.

(** The matching of Express (path-to-regexp, method table) is the
    library's: whether a route registered for a method and a path takes a
    request, and what path a router mounted at a prefix sees. *)
Class Matching : Type := {
  route_matches : string -> string -> request -> bool;
  mount_matches : string -> request -> option string
}.

Inductive layer : Type :=
| Use (h : named)                              (* app.use(fn) *)
| UseStar (h : named)                          (* app.use("*", fn) *)
| UseError (n : string) (h : error_handler)    (* app.use((error, req, res, next) => ..) *)
| Route (m p : string) (hs : list named)       (* app.get(p, ...hs), router.post(p, ...hs) *)
| Mount (prefix : string) (router : list layer). (* app.use(prefix, router) *)

(** Where a request stands in the stack: still travelling (with the error
    passed to [next], if any), or finished with a response or without. *)
Inductive flow : Type :=
| Travelling (err : option error_obj) (req : request) (w : world DB) (invoked : list string)
| Finished (r : option response) (w : world DB) (invoked : list string).

(** The handlers invoked so far, in order. *)
Definition invoked_of (f : flow) : list string :=
  match f with
  | Travelling _ _ _ tr | Finished _ _ tr => tr
  end.

Definition after_step (s : step * world DB) (tr : list string) : flow :=
  match s with
  | (Next req', w') => Travelling None req' w' tr
  | (NextError e req', w') => Travelling (Some e) req' w' tr
  | (Reply r, w') => Finished (Some r) w' tr
  | (Unanswered, w') => Finished None w' tr
  end.

(** The handlers of one route, in the order they were registered; each
    runs only when the one before it called [next()]. *)
Fixpoint run_chain (hs : list named) (req : request) (w : world DB)
    (tr : list string) : flow :=
  match hs with
  | [] => Travelling None req w tr
  | h :: hs' =>
      match after_step (run h req w) (tr ++ [name h]) with
      | Travelling None req' w' tr' => run_chain hs' req' w' tr'
      | f => f
      end
  end.

(** The routes a stack registers, as "METHOD path", the path of a route
    of a mounted router behind the prefix of the mount. *)
Fixpoint layer_routes (prefix : string) (l : layer) : list string :=
  match l with
  | Route m p _ => [m ++ " " ++ prefix ++ p]
  | Mount pre router =>
      (fix all (ls : list layer) : list string :=
         match ls with
         | [] => []
         | l' :: ls' => app (layer_routes (prefix ++ pre) l') (all ls')
         end) router
  | _ => []
  end.

Definition routes_of (stack : list layer) : list string :=
  flat_map (layer_routes "") stack.

Section Dispatch.
Context {matching : Matching}.

Fixpoint run_layer (l : layer) (f : flow) : flow :=
  match f with
  | Finished _ _ _ => f
  | Travelling (Some e) req w tr =>
      match l with
      | UseError n h => after_step (h e req w) (tr ++ [n])
      | _ => f
      end
  | Travelling None req w tr =>
      match l with
      | Use h | UseStar h => after_step (run h req w) (tr ++ [name h])
      | UseError _ _ => f
      | Route m p hs =>
          if route_matches m p req then run_chain hs req w tr else f
      | Mount prefix router =>
          match mount_matches prefix req with
          | None => f
          | Some inner =>
              match
                (fix through (ls : list layer) (f : flow) : flow :=
                   match ls with
                   | [] => f
                   | l' :: ls' => through ls' (run_layer l' f)
                   end) router (Travelling None (with_path inner req) w tr)
              with
              | Travelling e req' w' tr' =>
                  Travelling e (with_path (path req) req') w' tr'
              | done => done
              end
          end
      end
  end.

(** A request through a stack of layers, in registration order. *)
Fixpoint dispatch (ls : list layer) (f : flow) : flow :=
  match ls with
  | [] => f
  | l :: ls' => dispatch ls' (run_layer l f)
  end.

Definition handle (app : list layer) (req : request) (w : world DB) : flow :=
  dispatch app (Travelling None req w []).

(** Whether some registered route of the stack takes the request. *)
Fixpoint layer_has_route (l : layer) (req : request) : bool :=
  match l with
  | Route m p _ => route_matches m p req
  | Mount prefix router =>
      match mount_matches prefix req with
      | None => false
      | Some inner =>
          (fix any (ls : list layer) : bool :=
             match ls with
             | [] => false
             | l' :: ls' => layer_has_route l' (with_path inner req) || any ls'
             end) router
      end
  | _ => false
  end.

Definition has_route (app : list layer) (req : request) : bool :=
  existsb (fun l => layer_has_route l req) app.

End Dispatch.
End Stack.

End Express.

(* ================================================================== *)
(** ** The handlers *)

Module Handlers.
Import Js Effects Express.
Local Open Scope js_scope.

Definition fifty : number := num_of_Z 50.

Section Handlers.
Context {DB : Type} {engine : Engine} {stripe : Stripe} {process : Process}.

(** [const { amount, currency = "usd", metadata = {} } = req.body]: a
    default replaces [undefined] only. *)
Definition or_default (d v : value) : value :=
  match v with
  | VUndefined => d
  | _ => v
  end.

Definition amount_of (req : request) : value := obj_get "amount" (body req).
Definition currency_of (req : request) : value :=
  or_default (VStr "usd") (obj_get "currency" (body req)).
Definition metadata_of (req : request) : value :=
  or_default (VObj []) (obj_get "metadata" (body req)).

(** [{ ...metadata, source: "modern-ecommerce", created_at: now }] *)
Definition intent_metadata (metadata : value) (now : string) : obj :=
  obj_set "created_at" (VStr now)
    (obj_set "source" (VStr "modern-ecommerce")
       (spread_into [] metadata)).

(** The object passed to [stripe.paymentIntents.create], [lowered] being
    [currency.toLowerCase()]. *)
Definition intent_params (amount : number) (lowered : string) (metadata : value)
    : create_params :=
  {| amount := Math_round amount;
     currency := lowered;
     payment_method_types := ["card"];
     metadata := intent_metadata metadata Date_toISOString;
     description := "Modern E-commerce Purchase" |}.

(** The catch block of the payment handler. *)
Definition stripe_error_response (error : error_obj) : response :=
  if type_is error "StripeCardError" then
    res_json 400 (VObj [("error", opt_str (err_message error))])
  else if type_is error "StripeRateLimitError" then
    res_json 429 (VObj [("error", VStr "Too many requests. Please try again later.")])
  else if type_is error "StripeInvalidRequestError" then
    res_json 400 (VObj [("error", VStr "Invalid request parameters.")])
  else if type_is error "StripeAPIError" then
    res_json 500 (VObj [("error", VStr "Stripe API error. Please try again.")])
  else if type_is error "StripeConnectionError" then
    res_json 500 (VObj [("error", VStr "Network error. Please check your connection.")])
  else if type_is error "StripeAuthenticationError" then
    res_json 401 (VObj [("error", VStr "Authentication error. Please check your API keys.")])
  else
    res_json 500 (VObj [("error", VStr "An unexpected error occurred. Please try again.")]).

(** [app.post("/create-payment-intent", async (req, res) => ..)] *)
Definition create_payment_intent (req : request) : M DB response :=
  try_catch
    (let amount := amount_of req in
     let currency := currency_of req in
     let metadata := metadata_of req in
     if negb (ToBoolean amount) then
       ret (res_json 400 (VObj [("error", VStr "Amount is required")]))
     else
       below <- js_eval "<" amount (js_lt amount fifty) ;;
       if below : bool then
         ret (res_json 400
                (VObj [("error", VStr "Amount must be at least $0.50 (50 cents)")]))
       else
         console_write (Creating_payment_intent amount) ;;
         cents <- js_eval "Math.round" amount (ToNumber amount) ;;
         lowered <- call_toLowerCase currency ;;
         paymentIntent <- stripe_create (intent_params cents lowered metadata) ;;
         console_write (Payment_intent_created (id paymentIntent)) ;;
         ret (res_json 200
                (VObj [("clientSecret", VStr (client_secret paymentIntent));
                       ("paymentIntentId", VStr (id paymentIntent))])))
    (fun error =>
       console_write (Stripe_Error error) ;;
       ret (stripe_error_response error)).

(** [process.env.STRIPE_WEBHOOK_SECRET || "whsec_test_..."] *)
Definition endpointSecret : string :=
  match getenv "STRIPE_WEBHOOK_SECRET" with
  | Some s => if String.eqb s "" then "whsec_test_..." else s
  | None => "whsec_test_..."
  end.

(** [`${message}`] for the message of an error. *)
Definition template (message : option string) : string :=
  match message with
  | Some text => text
  | None => "undefined"
  end.

(** [event.data.object], [None] when [event] or [event.data] is null or
    undefined. *)
Definition event_object (event : value) : option value :=
  match get_prop event "data" with
  | Some data => get_prop data "object"
  | None => None
  end.

(** [`${object.id}`], [None] when the access or the conversion throws. *)
Definition id_text (object : value) : option string :=
  match get_prop object "id" with
  | Some i => ToString i
  | None => None
  end.

(** The number in [object.amount / 100], [None] when the access or the
    conversion throws. *)
Definition amount_number (object : value) : option number :=
  match get_prop object "amount" with
  | Some a => ToNumber a
  | None => None
  end.

(** [`${event.type}`], [None] when the access or the conversion throws. *)
Definition type_text (event : value) : option string :=
  match get_prop event "type" with
  | Some t => ToString t
  | None => None
  end.

(** The switch on [event.type]; it runs after the try block, so what it
    throws leaves the handler. *)
Definition handle_event (event : value) : M DB unit :=
  type <- js_eval "type" event (get_prop event "type") ;;
  if is_str type "payment_intent.succeeded" then
    paymentIntent <- js_eval "data.object" event (event_object event) ;;
    id <- js_eval "id" paymentIntent (id_text paymentIntent) ;;
    amount <- js_eval "amount" paymentIntent (amount_number paymentIntent) ;;
    console_write (Payment_succeeded id amount)
  else if is_str type "payment_intent.payment_failed" then
    failedPayment <- js_eval "data.object" event (event_object event) ;;
    id <- js_eval "id" failedPayment (id_text failedPayment) ;;
    console_write (Payment_failed id)
  else if is_str type "payment_method.attached" then
    paymentMethod <- js_eval "data.object" event (event_object event) ;;
    id <- js_eval "id" paymentMethod (id_text paymentMethod) ;;
    console_write (Payment_method_attached id)
  else
    text <- js_eval "type" event (type_text event) ;;
    console_write (Unhandled_event_type text).

(** [app.post("/webhook", express.raw(..), async (req, res) => ..)]; the
    catch block returns from the handler. *)
Definition webhook (req : request) : M DB response :=
  let sig := obj_get "stripe-signature" (headers req) in
  verified <- try_catch
    (event <- stripe_constructEvent (body req) sig endpointSecret ;;
     text <- js_eval "type" event (type_text event) ;;
     console_write (Webhook_received text) ;;
     ret (inr event))
    (fun err =>
       console_write (Webhook_signature_verification_failed (err_message err)) ;;
       ret (inl (res_send 400 ("Webhook Error: " ++ template (err_message err))))) ;;
  match verified with
  | inl early => ret early
  | inr event =>
      handle_event event ;;
      ret (res_json 200 (VObj [("received", VBool true)]))
  end.

(** The error-handling middleware. *)
Definition error_middleware (error : error_obj) (req : request) : M DB response :=
  console_write (Server_Error error) ;;
  ret (res_json 500
         (VObj [("error", VStr "Internal server error");
                ("message",
                 match getenv "NODE_ENV" with
                 | Some env =>
                     if String.eqb env "development"
                     then opt_str (err_message error) else VUndefined
                 | None => VUndefined
                 end)])).

(** The answers of the catch-all branch and of the minimum check. *)
Definition unexpected : response :=
  error_answer 500 "An unexpected error occurred. Please try again.".

Definition too_small : response :=
  error_answer 400 "Amount must be at least $0.50 (50 cents)".

(** What the handler does once both checks have let the amount through
    and the currency is a string. *)
Definition provider_outcome (req : request) (w : world DB) (n : number)
    (c : string) : result response * world DB :=
  let params := intent_params n (toLowerCase c) (metadata_of req) in
  let asked :=
    {| console := console w ++ [Creating_payment_intent (amount_of req)];
       provider_requests := provider_requests w ++ [params];
       database := database w |} in
  match paymentIntents_create params with
  | inr intent =>
      (Ok (res_json 200
             (VObj [("clientSecret", VStr (client_secret intent));
                    ("paymentIntentId", VStr (id intent))])),
       logged asked [Payment_intent_created (id intent)])
  | inl e => (Ok (stripe_error_response e), logged asked [Stripe_Error e])
  end.

(** The console line that goes with the type of an event, for the
    statements about the switch. *)
Definition line_of_type (event type : value) (text : string) (l : line) : Prop :=
  (type <> VStr "payment_intent.succeeded" ->
   type <> VStr "payment_intent.payment_failed" ->
   type <> VStr "payment_method.attached" ->
   l = Unhandled_event_type text) /\
  (type = VStr "payment_intent.succeeded" ->
   forall object id amount,
     event_object event = Some object -> id_text object = Some id ->
     amount_number object = Some amount -> l = Payment_succeeded id amount) /\
  (type = VStr "payment_intent.payment_failed" ->
   forall object id,
     event_object event = Some object -> id_text object = Some id ->
     l = Payment_failed id) /\
  (type = VStr "payment_method.attached" ->
   forall object id,
     event_object event = Some object -> id_text object = Some id ->
     l = Payment_method_attached id).

(** The verification the webhook asks of the SDK for a request. *)
Definition verification (req : request) : error_obj + value :=
  webhooks_constructEvent (body req)
    (obj_get "stripe-signature" (headers req)) endpointSecret.

End Handlers.
End Handlers.

(* ================================================================== *)
(** ** The applications *)

Module App.
Import Js Effects Express Handlers.

(** The middleware of the libraries ([cors()], [express.json()],
    [express.raw(..)]) and the modules of the repository the routes
    import ([controllers/authController], [middleware/auth]). *)
Class Library (DB : Type) : Type := {
  cors : @handler DB;
  express_json : @handler DB;
  express_raw : @handler DB
}.

Class AuthModules (DB : Type) : Type := {
  signup : @handler DB;
  signin : @handler DB;
  getMe : @handler DB;
  protect : @handler DB
}.

Section Apps.
Context {DB : Type} {engine : Engine} {stripe : Stripe} {process : Process}
        {library : Library DB} {auth : AuthModules DB}.

(** [routes/authRoutes.js] *)
Definition authRoutes : list (@layer DB) :=
  [ Route "POST" "/signup" [ {| name := "signup"; run := signup |} ];
    Route "POST" "/signin" [ {| name := "signin"; run := signin |} ];
    Route "GET" "/me" [ {| name := "protect"; run := protect |};
                        {| name := "getMe"; run := getMe |} ] ].

Definition availableEndpoints : list string :=
  [ "GET /"; "POST /create-payment-intent"; "POST /webhook";
    "POST /api/auth/signup"; "POST /api/auth/signin"; "GET /api/auth/me" ].

Definition not_found_body (endpoints : list string) : value :=
  VObj [("error", VStr "Endpoint not found");
        ("availableEndpoints", VArr (map VStr endpoints))].

(** The 404 handler, [app.use("*", (req, res) => ..)]. *)
Definition not_found (endpoints : list string) (req : request) : M DB response :=
  ret (res_json 404 (not_found_body endpoints)).

(** The health check of the server with the auth routes. *)
Definition health (req : request) : M DB response :=
  ret (res_json 200
    (VObj [("message", VStr "Modern E-commerce Stripe Payment Server is running!");
           ("timestamp", VStr Date_toISOString);
           ("endpoints",
            VObj [("health", VStr "GET /");
                  ("createPayment", VStr "POST /create-payment-intent");
                  ("auth",
                   VObj [("signup", VStr "POST /api/auth/signup");
                         ("signin", VStr "POST /api/auth/signin");
                         ("getMe", VStr "GET /api/auth/me")])])])).

Definition error_layer : @layer DB :=
  UseError "error" (fun error => answering (error_middleware error)).

(** The server with the auth routes, in registration order. *)
Definition app : list (@layer DB) :=
  [ Use {| name := "cors"; run := cors |};
    Use {| name := "express.json"; run := express_json |};
    Mount "/api/auth" authRoutes;
    Route "GET" "/" [ {| name := "health"; run := answering health |} ];
    Route "POST" "/create-payment-intent"
      [ {| name := "create-payment-intent";
           run := answering create_payment_intent |} ];
    error_layer;
    UseStar {| name := "404"; run := answering (not_found availableEndpoints) |} ].

Definition webhook_availableEndpoints : list string :=
  [ "GET /"; "POST /create-payment-intent"; "POST /webhook" ].

Definition webhook_health (req : request) : M DB response :=
  ret (res_json 200
    (VObj [("message", VStr "Modern E-commerce Stripe Payment Server is running!");
           ("timestamp", VStr Date_toISOString);
           ("endpoints",
            VObj [("health", VStr "GET /");
                  ("createPayment", VStr "POST /create-payment-intent")])])).

(** The server with the webhook, in registration order. *)
Definition webhook_app : list (@layer DB) :=
  [ Use {| name := "cors"; run := cors |};
    Use {| name := "express.json"; run := express_json |};
    Route "GET" "/" [ {| name := "health"; run := answering webhook_health |} ];
    Route "POST" "/create-payment-intent"
      [ {| name := "create-payment-intent";
           run := answering create_payment_intent |} ];
    Route "POST" "/webhook"
      [ {| name := "express.raw"; run := express_raw |};
        {| name := "webhook"; run := answering webhook |} ];
    error_layer;
    UseStar {| name := "404";
               run := answering (not_found webhook_availableEndpoints) |} ].

End Apps.
End App.

(* ================================================================== *)
(** ** A concrete environment, to run the handlers on examples *)

Module Sample.
Import Js Effects Express Handlers App.

Definition lower_ascii (c : ascii) : ascii :=
  let n := nat_of_ascii c in
  if andb (Nat.leb 65 n) (Nat.leb n 90) then ascii_of_nat (n + 32) else c.

Fixpoint lower (s : string) : string :=
  match s with
  | EmptyString => EmptyString
  | String c s' => String (lower_ascii c) (lower s')
  end.

(** An engine that lower-cases ASCII letters; of its number conversions
    the examples use the empty string only. *)
#[export] Instance engine : Engine := {|
  StringToNumber := fun s => if String.eqb s "" then Finite 0 else NaN;
  NumberToString := fun _ => "NaN";
  toLowerCase := lower;
  type_error_text := fun op _ => op ++ " failed";
  StringToNumber_empty := eq_refl
|}.

Definition intent : payment_intent :=
  {| id := "pi_1"; client_secret := "pi_1_secret_a" |}.

Definition card_declined : error_obj :=
  {| err_type := Some "StripeCardError";
     err_message := Some "Your card was declined." |}.

Definition bad_signature : error_obj :=
  {| err_type := Some "StripeSignatureVerificationError";
     err_message := Some "No signatures found matching the expected signature for payload" |}.

(** A provider that creates every intent; it verifies the payloads signed
    ["t=1,v1=ok"], and its event is the payload. *)
#[export] Instance stripe_ok : Stripe := {|
  paymentIntents_create := fun _ => inr intent;
  webhooks_constructEvent := fun payload sig _ =>
    if is_str sig "t=1,v1=ok" then inr (VObj payload) else inl bad_signature
|}.

(** A succeeded payment of 20.00, as Stripe sends it. *)
Definition succeeded_event : obj :=
  [("type", VStr "payment_intent.succeeded");
   ("data", VObj [("object", VObj [("id", VStr "pi_1");
                                   ("amount", VNum (num_of_Z 2000))])])].

(** A provider that declines every card. *)
Definition stripe_declining : Stripe := {|
  paymentIntents_create := fun _ => inl card_declined;
  webhooks_constructEvent := fun _ _ _ => inl bad_signature
|}.

Definition process_with (node_env : option string) : Process := {|
  getenv := fun k => if String.eqb k "NODE_ENV" then node_env else None;
  Date_toISOString := "2024-01-01T00:00:00.000Z"
|}.

#[export] Instance process : Process := process_with (Some "development").

Definition w0 : world unit :=
  {| console := []; provider_requests := []; database := tt |}.

Definition post (p : string) (hs b : obj) : request :=
  {| method := "POST"; path := p; headers := hs; body := b |}.

Definition get (p : string) : request :=
  {| method := "GET"; path := p; headers := []; body := [] |}.

Definition pay (b : obj) : request := post "/create-payment-intent" [] b.

Definition num (z : Z) : value := VNum (num_of_Z z).

Definition unit_world (c : list line) (p : list create_params) : world unit :=
  {| console := c; provider_requests := p; database := tt |}.

(** 100.5 cents in "USD", with a metadata that names [source]. *)
Definition order_request : request :=
  pay [("amount", VNum (Finite (201 # 2)));
       ("currency", VStr "USD");
       ("metadata", VObj [("source", VStr "spoofed"); ("order", VStr "7")])].

(** Exact matching of method and path; a mount strips its prefix. *)
Fixpoint strip_prefix (p s : string) : option string :=
  match p, s with
  | EmptyString, _ => Some s
  | String a p', String b s' =>
      if Ascii.eqb a b then strip_prefix p' s' else None
  | String _ _, EmptyString => None
  end.

#[export] Instance matching : Matching := {|
  route_matches := fun m p req =>
    andb (String.eqb m (method req)) (String.eqb p (path req));
  mount_matches := fun prefix req => strip_prefix prefix (path req)
|}.

Definition pass : @handler unit := fun req w => (Next req, w).

#[export] Instance library : Library unit := {|
  cors := pass; express_json := pass; express_raw := pass
|}.

Definition unauthorized : response :=
  res_json 401 (VObj [("message", VStr "Not authorized")]).

(** A guard that lets through the requests with an [authorization]
    header, and a controller that answers. *)
#[export] Instance auth : AuthModules unit := {|
  signup := fun _ w => (Reply (res_json 201 (VObj [])), w);
  signin := fun _ w => (Reply (res_json 200 (VObj [])), w);
  getMe := fun _ w => (Reply (res_json 200 (VObj [("user", VStr "me")])), w);
  protect := fun req w =>
    if obj_has "authorization" (headers req) then (Next req, w)
    else (Reply unauthorized, w)
|}.

(** The error [express.json()] passes on for a body that is not JSON. *)
Definition parse_failed : error_obj :=
  {| err_type := Some "entity.parse.failed";
     err_message := Some "Unexpected end of JSON input" |}.

(** A library whose JSON parser fails every body. *)
Definition library_failing : Library unit := {|
  cors := pass;
  express_json := fun req w => (NextError parse_failed req, w);
  express_raw := pass
|}.

Definition token_expired : error_obj :=
  {| err_type := None; err_message := Some "jwt expired" |}.

(** A guard that passes an error to [next] for every request. *)
Definition auth_failing : AuthModules unit := {|
  signup := fun _ w => (Reply (res_json 201 (VObj [])), w);
  signin := fun _ w => (Reply (res_json 200 (VObj [])), w);
  getMe := fun _ w => (Reply (res_json 200 (VObj [("user", VStr "me")])), w);
  protect := fun req w => (NextError token_expired req, w)
|}.

End Sample.

(* ================================================================== *)
(** * Properties *)

Import Js Effects Express Handlers App.
Close Scope Q_scope.

(** ** Objects *)

Lemma obj_get_set_same (k : string) (v : value) (o : obj) :
  obj_get k (obj_set k v o) = v.
Proof.
  induction o as [|[k' v'] o IH]; simpl.
  - now rewrite String.eqb_refl.
  - destruct (String.eqb k k') eqn:E; simpl; rewrite E; auto.
Qed.

Lemma obj_get_set_other (k k' : string) (v : value) (o : obj) :
  k <> k' -> obj_get k (obj_set k' v o) = obj_get k o.
Proof.
  intros Hne. induction o as [|[k0 v0] o IH]; simpl.
  - destruct (String.eqb k k') eqn:E; auto.
    apply String.eqb_eq in E. contradiction.
  - destruct (String.eqb k' k0) eqn:E'; simpl.
    + apply String.eqb_eq in E'. subst k0.
      destruct (String.eqb k k') eqn:E; auto.
      apply String.eqb_eq in E. contradiction.
    + destruct (String.eqb k k0); auto.
Qed.

Lemma obj_has_get (k : string) (o : obj) :
  obj_has k o = false -> obj_get k o = VUndefined.
Proof.
  induction o as [|[k' v'] o IH]; simpl; auto.
  destruct (String.eqb k k'); auto. discriminate.
Qed.

(** Setting a property the object does not have appends it. *)
Lemma obj_set_fresh (k : string) (v : value) (o : obj) :
  obj_has k o = false -> obj_set k v o = (o ++ [(k, v)])%list.
Proof.
  induction o as [|[k' v'] o IH]; simpl; auto.
  destruct (String.eqb k k') eqn:E; [discriminate|].
  intros Hfresh. now rewrite IH.
Qed.

Lemma obj_has_app (k : string) (o1 o2 : obj) :
  obj_has k (o1 ++ o2)%list = obj_has k o1 || obj_has k o2.
Proof.
  induction o1 as [|[k' v'] o1 IH]; simpl; auto.
  destruct (String.eqb k k'); auto.
Qed.

Lemma spread_fold_distinct (o acc : obj) :
  distinct_keys o = true ->
  (forall k, obj_has k o = true -> obj_has k acc = false) ->
  fold_left (fun a kv => obj_set (fst kv) (snd kv) a) o acc = (acc ++ o)%list.
Proof.
  revert acc. induction o as [|[k v] o IH]; intros acc Hd Hfresh; simpl.
  - now rewrite app_nil_r.
  - simpl in Hd. apply andb_true_iff in Hd as [Hk Hd].
    apply negb_true_iff in Hk.
    rewrite obj_set_fresh.
    2:{ apply Hfresh. simpl. now rewrite String.eqb_refl. }
    rewrite IH; auto.
    + now rewrite <- app_assoc.
    + intros k' Hk'. rewrite obj_has_app. simpl.
      rewrite Hfresh.
      2:{ simpl. rewrite Hk'. now destruct (String.eqb k' k). }
      destruct (String.eqb k' k) eqn:E; auto.
      apply String.eqb_eq in E. subst. congruence.
Qed.

(** Spreading an object into the empty object copies it. *)
Lemma spread_object (o : obj) :
  distinct_keys o = true -> spread_into [] (VObj o) = o.
Proof.
  intros Hd. unfold spread_into. simpl.
  now rewrite spread_fold_distinct.
Qed.

(** ** Numbers *)

Lemma js_ge_number `{Engine} (v : value) :
  js_ge v fifty = Some true ->
  exists n, ToNumber v = Some n /\ number_ge n fifty = true.
Proof.
  unfold js_ge. destruct (ToNumber v) as [n|]; simpl; [|discriminate].
  intros [= Hge]. eauto.
Qed.

Lemma ge_fifty_not_lt (n : number) :
  number_ge n fifty = true -> number_lt n fifty = false.
Proof.
  unfold number_ge, fifty, num_of_Z.
  destruct n as [| [|] | q]; simpl; try discriminate; auto.
  intros Hge. now apply negb_true_iff in Hge.
Qed.

Lemma ge_fifty_truthy `{Engine} (v : value) (n : number) :
  ToNumber v = Some n -> number_ge n fifty = true -> ToBoolean v = true.
Proof.
  unfold number_ge, fifty, num_of_Z.
  destruct v as [| |[|]|m|s|l|o]; simpl; auto;
    try (intros [= <-]; simpl; discriminate).
  - intros [= <-]. destruct m as [| [|] | q]; simpl; try discriminate; auto.
    intros Hge. apply negb_true_iff.
    destruct (Qeq_bool q 0%Q) eqn:E; auto.
    apply Qeq_bool_eq in E.
    assert (Hc : (q ?= inject_Z 50)%Q = Lt).
    { rewrite E. reflexivity. }
    rewrite Hc in Hge. discriminate.
  - intros [= <-]. destruct (String.eqb s "") eqn:E; auto.
    apply String.eqb_eq in E. subst s.
    rewrite StringToNumber_empty. simpl. discriminate.
Qed.

(** [Math.round] of a finite number is the integer at distance at most a
    half, the upper one at a tie. *)
Lemma Math_round_finite (q : Q) :
  exists z : Z,
    Math_round (Finite q) = num_of_Z z /\
    (inject_Z z - (1 # 2) <= q)%Q /\ (q < inject_Z z + (1 # 2))%Q.
Proof.
  exists (Qfloor (q + (1 # 2))). split; [reflexivity|].
  pose proof (Qfloor_le (q + (1 # 2))) as Hle.
  pose proof (Qlt_floor (q + (1 # 2))) as Hlt.
  rewrite inject_Z_plus in Hlt. simpl inject_Z in Hlt.
  split.
  - apply (Qplus_le_l _ _ (1 # 2)). ring_simplify.
    ring_simplify in Hle. exact Hle.
  - apply (Qplus_lt_l _ _ (1 # 2)).
    setoid_replace (inject_Z (Qfloor (q + (1 # 2))) + (1 # 2) + (1 # 2))%Q
      with (inject_Z (Qfloor (q + (1 # 2))) + 1)%Q by ring.
    exact Hlt.
Qed.

(* ================================================================== *)
(** ** Payment intent creation *)

Section PaymentIntent.
Context {DB : Type} {engine : Engine} {stripe : Stripe} {process : Process}.

Ltac run_handler :=
  unfold create_payment_intent, try_catch, bind, ret, throw, console_write,
    stripe_create, call_toLowerCase, js_eval; simpl.

(** The handler once the request has passed validation and its currency
    is a string: one request to the provider, then the answer. *)
Lemma create_payment_intent_valid (req : request) (w : world DB)
    (n : number) (c : string) :
  ToNumber (amount_of req) = Some n ->
  number_ge n fifty = true ->
  currency_of req = VStr c ->
  let params := intent_params n (toLowerCase c) (metadata_of req) in
  let asked :=
    {| console := console w ++ [Creating_payment_intent (amount_of req)];
       provider_requests := provider_requests w ++ [params];
       database := database w |} in
  create_payment_intent req w =
  match paymentIntents_create params with
  | inr intent =>
      (Ok (res_json 200
             (VObj [("clientSecret", VStr (client_secret intent));
                    ("paymentIntentId", VStr (id intent))])),
       {| console := console asked ++ [Payment_intent_created (id intent)];
          provider_requests := provider_requests asked;
          database := database asked |})
  | inl e =>
      (Ok (stripe_error_response e),
       {| console := console asked ++ [Stripe_Error e];
          provider_requests := provider_requests asked;
          database := database asked |})
  end.
Proof.
  intros Hn Hge Hc. run_handler.
  rewrite (ge_fifty_truthy _ _ Hn Hge). unfold js_lt. rewrite Hn. simpl.
  rewrite (ge_fifty_not_lt _ Hge), Hc. simpl.
  destruct (paymentIntents_create _); reflexivity.
Qed.

(** The same for any amount both checks let through, NaN included. *)
Lemma create_payment_intent_passed (req : request) (w : world DB)
    (n : number) (c : string) :
  ToBoolean (amount_of req) = true ->
  ToNumber (amount_of req) = Some n ->
  number_lt n fifty = false ->
  currency_of req = VStr c ->
  create_payment_intent req w = provider_outcome req w n c.
Proof.
  intros Hb Hn Hlt Hc. unfold provider_outcome, logged. run_handler.
  rewrite Hb. unfold js_lt. rewrite Hn. simpl. rewrite Hlt, Hc. simpl.
  destruct (paymentIntents_create _); reflexivity.
Qed.

(** What a run of the handler sends to the provider: nothing, or the one
    request built from the body. *)
Lemma create_payment_intent_requests (req : request) (w : world DB) :
  exists asked,
    provider_requests (snd (create_payment_intent req w))
    = (provider_requests w ++ asked)%list /\
    (asked = [] \/
     exists n c, asked = [intent_params n (toLowerCase c) (metadata_of req)]).
Proof.
  run_handler.
  destruct (ToBoolean (amount_of req)); simpl.
  2:{ exists []. rewrite app_nil_r. auto. }
  unfold js_lt. destruct (ToNumber (amount_of req)) as [n|]; simpl.
  2:{ exists []. rewrite app_nil_r. auto. }
  destruct (number_lt n fifty); simpl.
  1:{ exists []. rewrite app_nil_r. auto. }
  destruct (currency_of req) eqn:Hc; simpl;
    try (exists []; rewrite app_nil_r; now auto).
  eexists. split.
  2:{ right. do 2 eexists. reflexivity. }
  destruct (paymentIntents_create _); reflexivity.
Qed.

Lemma currency_of_cases (req : request) (c : string) :
  (obj_get "currency" (body req) = VUndefined /\ c = "usd") \/
  obj_get "currency" (body req) = VStr c ->
  currency_of req = VStr c.
Proof.
  unfold currency_of. intros [[-> ->] | ->]; reflexivity.
Qed.

Lemma intent_metadata_source (m : value) (now : string) :
  obj_get "source" (intent_metadata m now) = VStr "modern-ecommerce".
Proof.
  unfold intent_metadata.
  rewrite obj_get_set_other by discriminate.
  apply obj_get_set_same.
Qed.

Lemma intent_metadata_created_at (m : value) (now : string) :
  obj_get "created_at" (intent_metadata m now) = VStr now.
Proof. apply obj_get_set_same. Qed.

Lemma intent_metadata_other (m : value) (now k : string) :
  k <> "source" -> k <> "created_at" ->
  obj_get k (intent_metadata m now) = obj_get k (spread_into [] m).
Proof.
  intros Hs Hc. unfold intent_metadata.
  now rewrite !obj_get_set_other.
Qed.

(** C2: a request whose amount is less than 50, or has no amount, is
    answered 400 and nothing is sent to the provider (the state is left as
    it was); for the amount 49 the body is the minimum-amount error, and
    without an amount it is "Amount is required". *)
Theorem small_amount_rejected (req : request) (w : world DB) :
  js_lt (amount_of req) fifty = Some true \/ obj_has "amount" (body req) = false ->
  exists r,
    create_payment_intent req w = (Ok r, w) /\
    status r = 400 /\
    provider_requests (snd (create_payment_intent req w)) = provider_requests w /\
    (forall q, amount_of req = VNum (Finite q) -> (q == 49)%Q ->
       sent r = Json (VObj [("error",
                             VStr "Amount must be at least $0.50 (50 cents)")])) /\
    (obj_has "amount" (body req) = false ->
       sent r = Json (VObj [("error", VStr "Amount is required")])).
Proof.
  intros Hsmall. run_handler.
  destruct (ToBoolean (amount_of req)) eqn:Hb; simpl.
  - destruct Hsmall as [Hsmall | Habsent].
    + rewrite Hsmall. simpl. eexists. repeat split.
      intros Habsent. unfold amount_of in Hb.
      rewrite (obj_has_get _ _ Habsent) in Hb. discriminate.
    + unfold amount_of in Hb.
      rewrite (obj_has_get _ _ Habsent) in Hb. discriminate.
  - eexists. repeat split.
    intros q Hq H49. rewrite Hq in Hb. simpl in Hb.
    apply negb_false_iff, Qeq_bool_eq in Hb.
    rewrite Hb in H49. discriminate.
Qed.

(** C9: a falsy amount (0, NaN, the empty string, null, false, or none)
    is answered 400 "Amount is required", whatever the minimum-amount
    check would say: the test for absence comes first. *)
Theorem falsy_amount_required (req : request) (w : world DB) :
  ToBoolean (amount_of req) = false ->
  create_payment_intent req w =
  (Ok {| status := 400;
         sent := Json (VObj [("error", VStr "Amount is required")]) |}, w).
Proof.
  intros Hb. run_handler. now rewrite Hb.
Qed.

End PaymentIntent.

Section PaymentIntentProvider.
Context {DB : Type} {engine : Engine} {stripe : Stripe} {process : Process}.

(** C1 (amended): when the amount is at least 50 and the currency is a
    string or absent (then "usd"), exactly one request goes to the provider:
    its amount is [Math.round] of the amount (for a finite amount, the
    integer within a half of it), its currency is the lower-cased one, its
    payment method types are card only, and its metadata is the caller's
    with [source] and [created_at] set by the server; when the provider
    creates the intent, the answer is its client secret and identifier. *)
Theorem valid_request_creates_intent (req : request) (w : world DB) (c : string) :
  js_ge (amount_of req) fifty = Some true ->
  (obj_get "currency" (body req) = VUndefined /\ c = "usd") \/
  obj_get "currency" (body req) = VStr c ->
  exists n params,
    ToNumber (amount_of req) = Some n /\
    provider_requests (snd (create_payment_intent req w))
    = (provider_requests w ++ [params])%list /\
    amount params = Math_round n /\
    (forall q, n = Finite q ->
       exists z : Z, amount params = num_of_Z z /\
         (inject_Z z - (1 # 2) <= q)%Q /\ (q < inject_Z z + (1 # 2))%Q) /\
    currency params = toLowerCase c /\
    payment_method_types params = ["card"] /\
    obj_get "source" (metadata params) = VStr "modern-ecommerce" /\
    obj_get "created_at" (metadata params) = VStr Date_toISOString /\
    (forall o k, metadata_of req = VObj o -> distinct_keys o = true ->
       k <> "source" -> k <> "created_at" ->
       obj_get k (metadata params) = obj_get k o) /\
    (forall intent, paymentIntents_create params = inr intent ->
       fst (create_payment_intent req w) =
       Ok {| status := 200;
             sent := Json (VObj [("clientSecret", VStr (client_secret intent));
                                 ("paymentIntentId", VStr (id intent))]) |}).
Proof.
  intros Hge Hcur. apply currency_of_cases in Hcur.
  destruct (js_ge_number _ Hge) as (n & Hn & Hn50).
  pose proof (create_payment_intent_valid req w n c Hn Hn50 Hcur) as Hrun.
  cbv zeta in Hrun.
  exists n, (intent_params n (toLowerCase c) (metadata_of req)).
  split; [exact Hn|].
  split; [|split; [|split; [|split; [|split; [|split; [|split; [|split]]]]]]].
  - rewrite Hrun. destruct (paymentIntents_create _); reflexivity.
  - reflexivity.
  - intros q ->. apply Math_round_finite.
  - reflexivity.
  - reflexivity.
  - apply intent_metadata_source.
  - apply intent_metadata_created_at.
  - intros o k Ho Hd Hs Hc. simpl.
    rewrite intent_metadata_other by assumption.
    rewrite Ho. now rewrite spread_object.
  - intros intent Hok. rewrite Hrun, Hok. reflexivity.
Qed.

(** C3: whenever the provider is asked and rejects the creation, the
    answer follows the [type] of its error: card error 400 with the
    provider's message, rate limit 429, invalid request 400, API error 500,
    connection error 500, authentication error 401, anything else 500,
    each of the last six with its fixed text.  The provider is asked
    exactly for the requests both checks let through (a truthy amount for
    which [amount < 50] is false) with a string currency. *)
Theorem provider_failure_answer (req : request) (w : world DB)
    (n : number) (c : string) (e : error_obj) :
  ToBoolean (amount_of req) = true ->
  ToNumber (amount_of req) = Some n ->
  number_lt n fifty = false ->
  currency_of req = VStr c ->
  paymentIntents_create (intent_params n (toLowerCase c) (metadata_of req))
  = inl e ->
  exists r,
    fst (create_payment_intent req w) = Ok r /\
    (err_type e = Some "StripeCardError" ->
       r = res_json 400 (VObj [("error", opt_str (err_message e))]) /\
       forall text, err_message e = Some text -> r = error_answer 400 text) /\
    (err_type e = Some "StripeRateLimitError" ->
       r = error_answer 429 "Too many requests. Please try again later.") /\
    (err_type e = Some "StripeInvalidRequestError" ->
       r = error_answer 400 "Invalid request parameters.") /\
    (err_type e = Some "StripeAPIError" ->
       r = error_answer 500 "Stripe API error. Please try again.") /\
    (err_type e = Some "StripeConnectionError" ->
       r = error_answer 500 "Network error. Please check your connection.") /\
    (err_type e = Some "StripeAuthenticationError" ->
       r = error_answer 401 "Authentication error. Please check your API keys.") /\
    (err_type e <> Some "StripeCardError" ->
     err_type e <> Some "StripeRateLimitError" ->
     err_type e <> Some "StripeInvalidRequestError" ->
     err_type e <> Some "StripeAPIError" ->
     err_type e <> Some "StripeConnectionError" ->
     err_type e <> Some "StripeAuthenticationError" ->
       r = error_answer 500 "An unexpected error occurred. Please try again.").
Proof.
  intros Hb Hn Hlt Hcur Hfail.
  rewrite (create_payment_intent_passed req w n c Hb Hn Hlt Hcur).
  unfold provider_outcome. rewrite Hfail.
  exists (stripe_error_response e). split; [reflexivity|].
  unfold stripe_error_response, type_is.
  split.
  { intros Ht. rewrite Ht. simpl. split; [reflexivity|].
    intros text Hm. rewrite Hm. reflexivity. }
  do 5 (split; [intros Ht; rewrite Ht; reflexivity|]).
  intros H1 H2 H3 H4 H5 H6.
  destruct (err_type e) as [t|]; [|reflexivity].
  repeat match goal with
  | |- context [String.eqb t ?s] =>
      destruct (String.eqb_spec t s) as [->|_]; [congruence|]
  end.
  reflexivity.
Qed.

(** C10: what is sent to the provider for an amount of at least 50 has
    the server's [source] and [created_at], whatever the caller's metadata
    holds under these names; and a request is sent whenever the currency
    is a string. *)
Theorem fixed_metadata_wins (req : request) (w : world DB) :
  js_ge (amount_of req) fifty = Some true ->
  exists asked,
    provider_requests (snd (create_payment_intent req w))
    = (provider_requests w ++ asked)%list /\
    (forall p, In p asked ->
       obj_get "source" (metadata p) = VStr "modern-ecommerce" /\
       obj_get "created_at" (metadata p) = VStr Date_toISOString) /\
    (forall c, currency_of req = VStr c -> length asked = 1).
Proof.
  intros Hge.
  destruct (js_ge_number _ Hge) as (n & Hn & Hn50).
  destruct (create_payment_intent_requests req w) as (asked & Hw & Hasked).
  exists asked. split; [exact Hw|]. split.
  - intros p Hin. destruct Hasked as [-> | (m & c & ->)]; [contradiction|].
    destruct Hin as [<- | []]. split.
    + apply intent_metadata_source.
    + apply intent_metadata_created_at.
  - intros c Hc.
    pose proof (create_payment_intent_valid req w n c Hn Hn50 Hc) as Hrun.
    cbv zeta in Hrun. rewrite Hrun in Hw.
    assert (Hlen : length (provider_requests w ++ asked)
                   = length (provider_requests w) + 1).
    { rewrite <- Hw.
      destruct (paymentIntents_create _); simpl; rewrite length_app; reflexivity. }
    rewrite length_app in Hlen. lia.
Qed.

End PaymentIntentProvider.

(* ================================================================== *)
(** ** The webhook *)

Section Webhook.
Context {DB : Type} {engine : Engine} {stripe : Stripe} {process : Process}.

Lemma is_str_true (v : value) (s : string) :
  is_str v s = true <-> v = VStr s.
Proof.
  destruct v; simpl; try (split; [discriminate | intros H; discriminate H]).
  rewrite String.eqb_eq. split; [now intros -> | now intros [= ->]].
Qed.

Lemma is_str_false (v : value) (s : string) :
  is_str v s = false <-> v <> VStr s.
Proof.
  rewrite <- is_str_true. destruct (is_str v s); split; congruence.
Qed.

(** The switch on an event it can read: one line, of the event's type. *)
Lemma handle_event_line (event type : value) (text : string) (w : world DB) :
  get_prop event "type" = Some type ->
  ToString type = Some text ->
  (type = VStr "payment_intent.succeeded" ->
   exists object, event_object event = Some object /\
     id_text object <> None /\ amount_number object <> None) ->
  (type = VStr "payment_intent.payment_failed" \/
   type = VStr "payment_method.attached" ->
   exists object, event_object event = Some object /\ id_text object <> None) ->
  exists l,
    handle_event event w = (Ok tt, logged w [l]) /\
    line_of_type event type text l.
Proof.
  intros Htype Htext Hsucc Hother.
  unfold handle_event, bind, js_eval, line_of_type. rewrite Htype.
  unfold ret at 1.
  destruct (is_str type "payment_intent.succeeded") eqn:E1.
  { apply is_str_true in E1.
    destruct (Hsucc E1) as (object & Ho & Hid & Ha). rewrite Ho.
    destruct (id_text object) as [id|] eqn:Eid; [|now elim Hid].
    destruct (amount_number object) as [a|] eqn:Ea; [|now elim Ha].
    simpl. rewrite Eid. simpl. rewrite Ea. simpl.
    eexists. split; [reflexivity|]. subst type.
    repeat split; try congruence. }
  apply is_str_false in E1.
  destruct (is_str type "payment_intent.payment_failed") eqn:E2.
  { apply is_str_true in E2.
    destruct (Hother (or_introl E2)) as (object & Ho & Hid). rewrite Ho.
    destruct (id_text object) as [id|] eqn:Eid; [|now elim Hid].
    simpl. rewrite Eid. simpl.
    eexists. split; [reflexivity|]. subst type.
    repeat split; try congruence. }
  apply is_str_false in E2.
  destruct (is_str type "payment_method.attached") eqn:E3.
  { apply is_str_true in E3.
    destruct (Hother (or_intror E3)) as (object & Ho & Hid). rewrite Ho.
    destruct (id_text object) as [id|] eqn:Eid; [|now elim Hid].
    simpl. rewrite Eid. simpl.
    eexists. split; [reflexivity|]. subst type.
    repeat split; try congruence. }
  apply is_str_false in E3.
  unfold type_text. rewrite Htype, Htext. unfold ret.
  eexists. split; [reflexivity|].
  repeat split; auto; intros; contradiction.
Qed.

(** C4: when the verification of the signature fails, the answer is 400
    with the text "Webhook Error: " followed by the message of the
    verification error, and the only effect is the console line of the
    failure: no line of the event switch is written. *)
Theorem webhook_bad_signature (req : request) (w : world DB) (err : error_obj) :
  verification req = inl err ->
  let text := "Webhook Error: " ++ template (err_message err) in
  webhook req w =
  (Ok {| status := 400; sent := Text text |},
   {| console :=
        console w ++ [Webhook_signature_verification_failed (err_message err)];
      provider_requests := provider_requests w;
      database := database w |}) /\
  String.prefix "Webhook Error:" text = true /\
  (forall message, err_message err = Some message ->
     text = "Webhook Error: " ++ message).
Proof.
  unfold verification. intros Hv. split; [|split].
  - unfold webhook, try_catch, bind, stripe_constructEvent.
    rewrite Hv. reflexivity.
  - reflexivity.
  - intros message ->. reflexivity.
Qed.

(** C5 (amended): when the signature verifies and the event can be read
    (its type converts to text and, for the three handled types, its
    [data.object] is there with an [id], and for a success an [amount],
    that convert), then whatever the type of the event the answer is 200
    [{received: true}], and the state changes by two console lines only
    (the receipt and the line of the switch, which for a type outside the
    three handled ones is the unhandled-type line): nothing is sent to the
    provider and the database is as it was. *)
Theorem webhook_acknowledged (req : request) (w : world DB)
    (event type : value) (text : string) :
  verification req = inr event ->
  get_prop event "type" = Some type ->
  ToString type = Some text ->
  (type = VStr "payment_intent.succeeded" ->
   exists object, event_object event = Some object /\
     id_text object <> None /\ amount_number object <> None) ->
  (type = VStr "payment_intent.payment_failed" \/
   type = VStr "payment_method.attached" ->
   exists object, event_object event = Some object /\ id_text object <> None) ->
  exists l,
    webhook req w =
    (Ok {| status := 200; sent := Json (VObj [("received", VBool true)]) |},
     {| console := console w ++ [Webhook_received text; l];
        provider_requests := provider_requests w;
        database := database w |}) /\
    (type <> VStr "payment_intent.succeeded" ->
     type <> VStr "payment_intent.payment_failed" ->
     type <> VStr "payment_method.attached" ->
     l = Unhandled_event_type text) /\
    (type = VStr "payment_intent.succeeded" ->
     forall object id amount,
       event_object event = Some object -> id_text object = Some id ->
       amount_number object = Some amount -> l = Payment_succeeded id amount) /\
    (type = VStr "payment_intent.payment_failed" ->
     forall object id,
       event_object event = Some object -> id_text object = Some id ->
       l = Payment_failed id) /\
    (type = VStr "payment_method.attached" ->
     forall object id,
       event_object event = Some object -> id_text object = Some id ->
       l = Payment_method_attached id).
Proof.
  unfold verification. intros Hv Htype Htext Hsucc Hother.
  destruct (handle_event_line event type text
              (logged w [Webhook_received text]) Htype Htext Hsucc Hother)
    as (l & Hl & Hline).
  exists l. split; [|exact Hline].
  unfold webhook, try_catch, bind, stripe_constructEvent.
  rewrite Hv. unfold ret at 1. unfold type_text. rewrite Htype, Htext.
  unfold js_eval, ret at 1. unfold console_write at 1. simpl.
  unfold logged in Hl. simpl in Hl. rewrite Hl.
  unfold ret. simpl. rewrite <- app_assoc. reflexivity.
Qed.

(** ** The error-handling middleware *)

(** C7 (amended): an error that reaches the error-handling middleware is
    answered 500 with error "Internal server error", and the body carries
    a message exactly when NODE_ENV is "development" and the error has
    one; it is then the error's message. *)
Theorem error_middleware_answer (error : error_obj) (req : request)
    (w : world DB) :
  exists o,
    error_middleware error req w =
    (Ok {| status := 500; sent := Json (VObj o) |},
     {| console := console w ++ [Server_Error error];
        provider_requests := provider_requests w;
        database := database w |}) /\
    obj_get "error" o = VStr "Internal server error" /\
    (obj_has "message" o = true <->
     getenv "NODE_ENV" = Some "development" /\ err_message error <> None) /\
    (obj_has "message" o = true ->
     obj_get "message" o = opt_str (err_message error)).
Proof.
  unfold error_middleware, bind, console_write, ret, res_json.
  destruct (getenv "NODE_ENV") as [env|] eqn:Henv.
  - destruct (String.eqb_spec env "development") as [->|Hne].
    + destruct (err_message error) as [text|] eqn:Hm;
        (eexists; split; [reflexivity|]; simpl;
         split; [reflexivity|]; split;
         [ split;
           [ first [ discriminate
                   | intros _; split; [reflexivity | discriminate] ]
           | first [ reflexivity | intros [_ Hu]; now elim Hu ] ]
         | first [ discriminate | intros _; reflexivity ] ]).
    + eexists; split; [reflexivity|]; simpl.
      split; [reflexivity|]. split; [|discriminate].
      split; [discriminate|]. intros [Hdev _]. congruence.
  - eexists; split; [reflexivity|]; simpl.
    split; [reflexivity|]. split; [|discriminate].
    split; [discriminate|]. intros [Hdev _]. discriminate.
Qed.

End Webhook.

(* ================================================================== *)
(** ** Routing *)

Section Routing.
Context {DB : Type} {engine : Engine} {stripe : Stripe} {process : Process}
        {library : Library DB} {auth : AuthModules DB} {matching : Matching}.

Lemma with_path_restore (p : string) (req : request) :
  with_path (path req) (with_path p req) = req.
Proof. destruct req; reflexivity. Qed.

(** A request none of the auth routes takes leaves the router as it
    entered it. *)
Lemma authRoutes_pass (req : request) (w : world DB) (tr : list string) :
  route_matches "POST" "/signup" req = false ->
  route_matches "POST" "/signin" req = false ->
  route_matches "GET" "/me" req = false ->
  dispatch authRoutes (Travelling None req w tr) = Travelling None req w tr.
Proof.
  intros H1 H2 H3. unfold authRoutes. cbn [dispatch run_layer].
  now rewrite H1, H2, H3.
Qed.


(** The server with the webhook answers the same way, with its own list
    of three endpoints. *)
Lemma webhook_app_not_found (req req1 req2 : request) (w w1 w2 : world DB) :
  cors req w = (Next req1, w1) ->
  express_json req1 w1 = (Next req2, w2) ->
  has_route webhook_app req2 = false ->
  handle webhook_app req w =
  Finished
    (Some {| status := 404;
             sent := Json (VObj
               [("error", VStr "Endpoint not found");
                ("availableEndpoints",
                 VArr [VStr "GET /"; VStr "POST /create-payment-intent";
                       VStr "POST /webhook"])]) |})
    w2 ["cors"; "express.json"; "404"].
Proof.
  intros Hcors Hjson Hnone.
  unfold has_route, webhook_app in Hnone.
  cbn [existsb layer_has_route] in Hnone.
  repeat rewrite orb_false_r in Hnone. cbn [orb] in Hnone.
  apply orb_false_iff in Hnone as [Hhealth Hnone].
  apply orb_false_iff in Hnone as [Hpay Hhook].
  unfold handle, webhook_app.
  cbn [dispatch run_layer name run after_step app_nil_l].
  rewrite Hcors. cbn [after_step run_layer name run].
  rewrite Hjson. cbn [after_step run_layer].
  rewrite Hhealth, Hpay, Hhook. reflexivity.
Qed.

(** C8: on a request for GET /me, the router invokes [protect] first, and
    [getMe] only after [protect] has called [next()], with the request
    [protect] passed on: when [protect] answers or fails the request
    instead, [getMe] is not invoked and the outcome is that of [protect]. *)
Theorem protect_guards_getMe (req : request) (w : world DB) :
  route_matches "POST" "/signup" req = false ->
  route_matches "POST" "/signin" req = false ->
  route_matches "GET" "/me" req = true ->
  let f := dispatch authRoutes (Travelling None req w []) in
  (exists rest, invoked_of f = "protect" :: rest) /\
  (forall s w', protect req w = (s, w') -> (forall r, s <> Next r) ->
     f = after_step (s, w') ["protect"] /\ ~ In "getMe" (invoked_of f)) /\
  (forall req' w', protect req w = (Next req', w') ->
     f = after_step (getMe req' w') ["protect"; "getMe"]).
Proof.
  intros Hsignup Hsignin Hme. unfold authRoutes.
  cbn [dispatch run_layer]. rewrite Hsignup, Hsignin, Hme.
  cbn [run_chain name run app].
  destruct (protect req w) as [s w1] eqn:Hp.
  destruct s as [req1| e req1 | r |]; cbn [after_step].
  - destruct (getMe req1 w1) as [s2 w2] eqn:Hg.
    split; [|split].
    + destruct s2; simpl; eauto.
    + intros s w' Heq Hnot. injection Heq as <- <-. now elim (Hnot req1).
    + intros req' w' Heq. injection Heq as <- <-. rewrite Hg.
      destruct s2; reflexivity.
  - split; [|split].
    + simpl. eauto.
    + intros s w' Heq _. injection Heq as <- <-. simpl.
      split; [reflexivity|]. intros [H|[]]. discriminate.
    + intros req' w' Heq. discriminate.
  - split; [|split].
    + simpl. eauto.
    + intros s w' Heq _. injection Heq as <- <-. simpl.
      split; [reflexivity|]. intros [H|[]]. discriminate.
    + intros req' w' Heq. discriminate.
  - split; [|split].
    + simpl. eauto.
    + intros s w' Heq _. injection Heq as <- <-. simpl.
      split; [reflexivity|]. intros [H|[]]. discriminate.
    + intros req' w' Heq. discriminate.
Qed.

(** The same through the whole server: a request for GET /api/auth/me
    that [protect] does not pass on never reaches [getMe]. *)
Lemma app_protect_guards_getMe
    (req req1 req2 : request) (w w1 w2 : world DB) (inner : string) :
  cors req w = (Next req1, w1) ->
  express_json req1 w1 = (Next req2, w2) ->
  mount_matches "/api/auth" req2 = Some inner ->
  route_matches "POST" "/signup" (with_path inner req2) = false ->
  route_matches "POST" "/signin" (with_path inner req2) = false ->
  route_matches "GET" "/me" (with_path inner req2) = true ->
  forall s w', protect (with_path inner req2) w2 = (s, w') ->
  (forall r, s <> Next r) ->
  ~ In "getMe" (invoked_of (handle app req w)).
Proof.
  intros Hcors Hjson Hmount Hsignup Hsignin Hme s w' Hp Hfails.
  unfold handle, app.
  cbn [dispatch run_layer name run after_step app_nil_l].
  rewrite Hcors. cbn [after_step run_layer name run].
  rewrite Hjson. cbn [after_step run_layer].
  rewrite Hmount. unfold authRoutes. cbn.
  rewrite Hsignup, Hsignin, Hme. cbn. rewrite Hp.
  destruct s as [r | e r | r |]; [now elim (Hfails r) | | |];
    simpl; intuition discriminate.
Qed.

End Routing.

(* ================================================================== *)
(** ** The properties on concrete requests *)

Section Examples.
Import Sample.

(** A payment of 49 cents. *)
Lemma small_amount_rejected_49 :
  let req := pay [("amount", num 49)] in
  (js_lt (amount_of req) fifty = Some true \/
   obj_has "amount" (body req) = false) /\
  create_payment_intent req w0 =
  (Ok (error_answer 400 "Amount must be at least $0.50 (50 cents)"), w0).
Proof.
  intros req. split; [left; reflexivity|].
  destruct (small_amount_rejected req w0 (or_introl eq_refl))
    as (r & Hrun & Hstatus & _ & H49 & _).
  rewrite Hrun. destruct r as [st b]. simpl in Hstatus.
  specialize (H49 (inject_Z 49) eq_refl (Qeq_refl _)). simpl in H49.
  rewrite Hstatus, H49. reflexivity.
Defined.

(** A payment of 0: the answer is the one for a missing amount. *)
Lemma falsy_amount_required_zero :
  let req := pay [("amount", num 0)] in
  ToBoolean (amount_of req) = false /\
  create_payment_intent req w0 = (Ok (error_answer 400 "Amount is required"), w0).
Proof.
  intros req. split; [reflexivity|].
  apply (falsy_amount_required req w0). reflexivity.
Defined.

(** 100.5 cents in "USD": one request of 101 cents in "usd", whose
    [source] is the server's and whose [order] is the caller's. *)
Lemma valid_request_creates_intent_order :
  (js_ge (amount_of order_request) fifty = Some true /\
   ((obj_get "currency" (body order_request) = VUndefined /\ "USD" = "usd") \/
    obj_get "currency" (body order_request) = VStr "USD")) /\
  exists params,
    provider_requests (snd (create_payment_intent order_request w0)) = [params] /\
    amount params = num_of_Z 101 /\
    currency params = "usd" /\
    obj_get "source" (metadata params) = VStr "modern-ecommerce" /\
    obj_get "order" (metadata params) = VStr "7" /\
    fst (create_payment_intent order_request w0) =
    Ok {| status := 200;
          sent := Json (VObj [("clientSecret", VStr "pi_1_secret_a");
                              ("paymentIntentId", VStr "pi_1")]) |}.
Proof.
  split; [split; [reflexivity | right; reflexivity]|].
  destruct (valid_request_creates_intent order_request w0 "USD"
              eq_refl (or_intror eq_refl))
    as (n & params & Hn & Hsent & Hamount & _ & Hcur & _ & Hsource & _
        & Hmeta & Hok).
  injection Hn as <-.
  exists params.
  split; [exact Hsent|]. split; [rewrite Hamount; reflexivity|].
  split; [rewrite Hcur; reflexivity|]. split; [exact Hsource|].
  split.
  - rewrite (Hmeta [("source", VStr "spoofed"); ("order", VStr "7")] "order");
      try reflexivity; discriminate.
  - apply (Hok intent). reflexivity.
Defined.

(** C1 as stated fails on a currency that is not a string: with
    [currency: null] and the amount 100, [toLowerCase] throws before the
    provider is asked, and the catch block answers 500. *)
Lemma null_currency_never_reaches_provider :
  let req := pay [("amount", num 100); ("currency", VNull)] in
  js_ge (amount_of req) fifty = Some true /\
  provider_requests (snd (create_payment_intent req w0)) = [] /\
  ~ (exists params,
       provider_requests (snd (create_payment_intent req w0)) = [params]) /\
  fst (create_payment_intent req w0) =
  Ok (error_answer 500 "An unexpected error occurred. Please try again.").
Proof.
  intros req. split; [reflexivity|]. split; [reflexivity|]. split.
  - intros (params & Hone). discriminate Hone.
  - reflexivity.
Qed.

(** A card the provider declines, for an amount that is not a number:
    the text "abc" is truthy and [amount < 50] is false for it. *)
Lemma provider_failure_answer_declined :
  let req := pay [("amount", VStr "abc")] in
  (ToBoolean (amount_of req) = true /\
   ToNumber (amount_of req) = Some NaN /\
   number_lt NaN fifty = false /\
   currency_of req = VStr "usd" /\
   @paymentIntents_create stripe_declining
     (intent_params NaN (toLowerCase "usd") (metadata_of req))
   = inl card_declined) /\
  fst (@create_payment_intent unit engine stripe_declining process req w0) =
  Ok (error_answer 400 "Your card was declined.").
Proof.
  intros req.
  assert (Hb : ToBoolean (amount_of req) = true) by reflexivity.
  assert (Hn : ToNumber (amount_of req) = Some NaN) by reflexivity.
  assert (Hlt : number_lt NaN fifty = false) by reflexivity.
  assert (Hc : currency_of req = VStr "usd") by reflexivity.
  assert (Hp : @paymentIntents_create stripe_declining
                 (intent_params NaN (toLowerCase "usd") (metadata_of req))
               = inl card_declined) by reflexivity.
  split; [repeat split; assumption|].
  destruct (@provider_failure_answer unit engine stripe_declining process
              req w0 NaN "usd" card_declined Hb Hn Hlt Hc Hp)
    as (r & Hrun & Hcard & _).
  rewrite Hrun. f_equal.
  destruct (Hcard eq_refl) as [_ Htext]. apply Htext. reflexivity.
Defined.

Lemma fixed_metadata_wins_order :
  js_ge (amount_of order_request) fifty = Some true /\
  exists asked,
    provider_requests (snd (create_payment_intent order_request w0)) = asked /\
    length asked = 1 /\
    forall p, In p asked ->
      obj_get "source" (metadata p) = VStr "modern-ecommerce" /\
      obj_get "created_at" (metadata p) = VStr "2024-01-01T00:00:00.000Z".
Proof.
  split; [reflexivity|].
  destruct (fixed_metadata_wins order_request w0 eq_refl)
    as (asked & Hsent & Hfixed & Hone).
  exists asked. split; [exact Hsent|]. split.
  - apply (Hone "USD"). reflexivity.
  - exact Hfixed.
Defined.

(** A webhook call without a signature header. *)
Lemma webhook_bad_signature_unsigned :
  let req := post "/webhook" [] [("type", VStr "payment_intent.succeeded")] in
  verification req = inl bad_signature /\
  webhook req w0 =
  (Ok {| status := 400;
         sent := Text "Webhook Error: No signatures found matching the expected signature for payload" |},
   unit_world
     [Webhook_signature_verification_failed
        (Some "No signatures found matching the expected signature for payload")]
     []).
Proof.
  intros req.
  assert (Hfails : verification req = inl bad_signature) by reflexivity.
  split; [exact Hfails|].
  apply (webhook_bad_signature req w0 bad_signature Hfails).
Defined.

(** A verified event of a type the switch does not handle, and a verified
    succeeded payment. *)
Lemma webhook_acknowledged_unhandled :
  let event := [("type", VStr "customer.created")] in
  let req := post "/webhook" [("stripe-signature", VStr "t=1,v1=ok")] event in
  let paid := post "/webhook" [("stripe-signature", VStr "t=1,v1=ok")]
                   succeeded_event in
  let object := VObj [("id", VStr "pi_1"); ("amount", VNum (num_of_Z 2000))] in
  ((verification req = inr (VObj event) /\
    get_prop (VObj event) "type" = Some (VStr "customer.created") /\
    ToString (VStr "customer.created") = Some "customer.created") /\
   webhook req w0 =
   (Ok {| status := 200; sent := Json (VObj [("received", VBool true)]) |},
    unit_world [Webhook_received "customer.created";
                Unhandled_event_type "customer.created"] [])) /\
  ((verification paid = inr (VObj succeeded_event) /\
    get_prop (VObj succeeded_event) "type"
    = Some (VStr "payment_intent.succeeded") /\
    ToString (VStr "payment_intent.succeeded") = Some "payment_intent.succeeded" /\
    event_object (VObj succeeded_event) = Some object /\
    id_text object = Some "pi_1" /\
    amount_number object = Some (num_of_Z 2000)) /\
   webhook paid w0 =
   (Ok {| status := 200; sent := Json (VObj [("received", VBool true)]) |},
    unit_world [Webhook_received "payment_intent.succeeded";
                Payment_succeeded "pi_1" (num_of_Z 2000)] [])).
Proof.
  intros event req paid object. split.
  - assert (Hverified : verification req = inr (VObj event)) by reflexivity.
    assert (Htype : get_prop (VObj event) "type"
                    = Some (VStr "customer.created")) by reflexivity.
    assert (Htext : ToString (VStr "customer.created")
                    = Some "customer.created") by reflexivity.
    split; [repeat split; assumption|].
    destruct (webhook_acknowledged req w0 (VObj event)
                (VStr "customer.created") "customer.created"
                Hverified Htype Htext)
      as (l & Hrun & Hline & _).
    + discriminate.
    + intros [H|H]; discriminate H.
    + rewrite Hrun, Hline; [reflexivity | discriminate ..].
  - assert (Hverified : verification paid = inr (VObj succeeded_event))
      by reflexivity.
    assert (Htype : get_prop (VObj succeeded_event) "type"
                    = Some (VStr "payment_intent.succeeded")) by reflexivity.
    assert (Htext : ToString (VStr "payment_intent.succeeded")
                    = Some "payment_intent.succeeded") by reflexivity.
    assert (Ho : event_object (VObj succeeded_event) = Some object)
      by reflexivity.
    assert (Hid : id_text object = Some "pi_1") by reflexivity.
    assert (Ha : amount_number object = Some (num_of_Z 2000)) by reflexivity.
    split; [repeat split; assumption|].
    destruct (webhook_acknowledged paid w0 (VObj succeeded_event)
                (VStr "payment_intent.succeeded") "payment_intent.succeeded"
                Hverified Htype Htext)
      as (l & Hrun & _ & Hline & _).
    + intros _. exists object. rewrite Hid, Ha.
      split; [exact Ho|]. split; discriminate.
    + intros [H|H]; discriminate H.
    + rewrite Hrun, (Hline eq_refl object "pi_1" (num_of_Z 2000) Ho Hid Ha).
      reflexivity.
Defined.

(** C5 as stated fails on a verified event that has no [data]: for the
    type "payment_intent.succeeded" the switch reads [event.data.object]
    outside the try block, the TypeError leaves the handler and the request
    is never answered. *)
Lemma verified_event_without_data_unanswered :
  let event := [("type", VStr "payment_intent.succeeded")] in
  let req := post "/webhook" [("stripe-signature", VStr "t=1,v1=ok")] event in
  verification req = inr (VObj event) /\
  (forall r w', webhook req w0 <> (Ok r, w')) /\
  handle webhook_app req w0 =
  Finished None (unit_world [Webhook_received "payment_intent.succeeded"] [])
    ["cors"; "express.json"; "express.raw"; "webhook"].
Proof.
  intros event req. split; [reflexivity|]. split.
  - intros r w' Hrun. vm_compute in Hrun. discriminate Hrun.
  - reflexivity.
Qed.

(** C7 as stated fails outside production when NODE_ENV is not
    "development": under NODE_ENV=test the body has no message. *)
Lemma test_environment_hides_message :
  let error := {| err_type := None; err_message := Some "boom" |} in
  @getenv (process_with (Some "test")) "NODE_ENV" = Some "test" /\
  "test" <> "production" /\
  fst (@error_middleware unit (process_with (Some "test")) error (get "/") w0) =
  Ok {| status := 500;
        sent := Json (VObj [("error", VStr "Internal server error")]) |}.
Proof.
  intros error. split; [reflexivity|]. split; [discriminate | reflexivity].
Qed.



(** GET /me without a credential: the guard answers 401 and the
    controller is not invoked. *)
Lemma protect_guards_getMe_unauthorized :
  let req := get "/me" in
  let f := dispatch authRoutes (Travelling None req w0 []) in
  (route_matches "POST" "/signup" req = false /\
   route_matches "POST" "/signin" req = false /\
   route_matches "GET" "/me" req = true) /\
  f = Finished (Some unauthorized) w0 ["protect"] /\
  ~ In "getMe" (invoked_of f).
Proof.
  intros req f.
  assert (Hsignup : route_matches "POST" "/signup" req = false) by reflexivity.
  assert (Hsignin : route_matches "POST" "/signin" req = false) by reflexivity.
  assert (Hme : route_matches "GET" "/me" req = true) by reflexivity.
  split; [repeat split; assumption|].
  destruct (protect_guards_getMe req w0 Hsignup Hsignin Hme)
    as (_ & Hfails & _).
  apply (Hfails (Reply unauthorized) w0); [reflexivity | discriminate].
Defined.

End Examples.

(* ================================================================== *)
(** * Further properties of the handlers *)

(** ** Every run of the payment handler *)

Section PaymentRuns.
Context {DB : Type} {engine : Engine} {stripe : Stripe} {process : Process}.

Ltac run_payment :=
  unfold create_payment_intent, try_catch, bind, ret, throw, console_write,
    stripe_create, call_toLowerCase, js_eval, logged; simpl.

(** The five ways a run can go. *)
Lemma create_payment_intent_run (req : request) (w : world DB) :
  let a := amount_of req in
  let run := create_payment_intent req w in
  (ToBoolean a = false /\ run = (Ok (error_answer 400 "Amount is required"), w))
  \/ (ToBoolean a = true /\ ToNumber a = None /\
      run = (Ok unexpected,
             logged w [Stripe_Error (TypeError (type_error_text "<" a))]))
  \/ (exists n, ToBoolean a = true /\ ToNumber a = Some n /\
        number_lt n fifty = true /\ run = (Ok too_small, w))
  \/ (exists n, ToBoolean a = true /\ ToNumber a = Some n /\
        number_lt n fifty = false /\ (forall c, currency_of req <> VStr c) /\
        run = (Ok unexpected,
               logged w [Creating_payment_intent a;
                         Stripe_Error (TypeError
                           (type_error_text "toLowerCase" (currency_of req)))]))
  \/ (exists n c, ToBoolean a = true /\ ToNumber a = Some n /\
        number_lt n fifty = false /\ currency_of req = VStr c /\
        run = provider_outcome req w n c).
Proof.
  intros a run. subst a run.
  destruct (ToBoolean (amount_of req)) eqn:Hb.
  2:{ left. split; [reflexivity|]. run_payment. now rewrite Hb. }
  right.
  destruct (ToNumber (amount_of req)) as [n|] eqn:Hn.
  2:{ left. repeat split. run_payment. rewrite Hb. unfold js_lt.
      rewrite Hn. reflexivity. }
  right.
  destruct (number_lt n fifty) eqn:Hlt.
  1:{ left. exists n. repeat split; auto. run_payment. rewrite Hb.
      unfold js_lt. rewrite Hn. simpl. now rewrite Hlt. }
  right.
  destruct (currency_of req) as [| | | |c| |] eqn:Hc;
    try (left; exists n; repeat split; auto; [discriminate|];
         run_payment; rewrite Hb; unfold js_lt; rewrite Hn; simpl;
         rewrite Hlt, Hc; simpl; rewrite <- app_assoc; reflexivity).
  right. exists n, c. repeat split; auto.
  now apply create_payment_intent_passed.
Qed.

Lemma stripe_error_response_status (e : error_obj) :
  In (status (stripe_error_response e)) [400; 401; 429; 500].
Proof.
  unfold stripe_error_response.
  repeat match goal with
  | |- context [type_is e ?s] => destruct (type_is e s); [simpl; tauto|]
  end.
  simpl; tauto.
Qed.

(** X1: whatever the body, the payment handler answers: it never lets an
    exception out, its status is one of 200, 400, 401, 429 and 500, it
    sends at most one request to the provider, and it leaves the database
    as it was. *)
Theorem create_payment_intent_always_answers (req : request) (w : world DB) :
  exists r w' asked,
    create_payment_intent req w = (Ok r, w') /\
    In (status r) [200; 400; 401; 429; 500] /\
    provider_requests w' = (provider_requests w ++ asked)%list /\
    length asked <= 1 /\
    database w' = database w.
Proof.
  destruct (create_payment_intent_run req w)
    as [(_ & ->) | [(_ & _ & ->) | [(n & _ & _ & _ & ->)
       | [(n & _ & _ & _ & _ & ->) | (n & c & _ & _ & _ & _ & ->)]]]].
  - do 2 eexists. exists []. rewrite app_nil_r. simpl. intuition.
  - do 2 eexists. exists []. rewrite app_nil_r. simpl. intuition.
  - do 2 eexists. exists []. rewrite app_nil_r. simpl. intuition.
  - do 2 eexists. exists []. rewrite app_nil_r. simpl. intuition.
  - unfold provider_outcome.
    destruct (paymentIntents_create _) as [e|intent].
    + do 2 eexists. eexists [_]. split; [reflexivity|]. simpl.
      pose proof (stripe_error_response_status e) as Hs. simpl in Hs.
      intuition.
    + do 2 eexists. eexists [_]. split; [reflexivity|]. simpl. intuition.
Qed.

(** X2: an answer 200 comes only from a created intent: the amount passed
    both checks (it is truthy and [amount < 50] is false), the currency was
    a string, the one request sent is the one built from the body, the
    provider created the intent, and the body is its client secret and
    identifier. *)
Theorem ok_answer_means_created (req : request) (w : world DB) (r : response) :
  fst (create_payment_intent req w) = Ok r ->
  status r = 200 ->
  exists n c intent,
    ToBoolean (amount_of req) = true /\
    ToNumber (amount_of req) = Some n /\
    number_lt n fifty = false /\
    js_lt (amount_of req) fifty = Some false /\
    currency_of req = VStr c /\
    paymentIntents_create (intent_params n (toLowerCase c) (metadata_of req))
    = inr intent /\
    provider_requests (snd (create_payment_intent req w))
    = (provider_requests w
       ++ [intent_params n (toLowerCase c) (metadata_of req)])%list /\
    sent r = Json (VObj [("clientSecret", VStr (client_secret intent));
                         ("paymentIntentId", VStr (id intent))]).
Proof.
  intros Hrun Hok.
  destruct (create_payment_intent_run req w)
    as [(_ & Heq) | [(_ & _ & Heq) | [(n & _ & _ & _ & Heq)
       | [(n & _ & _ & _ & _ & Heq) | (n & c & Hb & Hn & Hlt & Hc & Heq)]]]];
    rewrite Heq in Hrun |- *; simpl in Hrun;
    try (injection Hrun as <-; discriminate Hok).
  unfold provider_outcome in Hrun |- *.
  destruct (paymentIntents_create _) as [e|intent] eqn:Hp; simpl in Hrun.
  - injection Hrun as <-.
    pose proof (stripe_error_response_status e) as Hs. rewrite Hok in Hs.
    simpl in Hs. intuition discriminate.
  - injection Hrun as <-. exists n, c, intent.
    assert (Hjs : js_lt (amount_of req) fifty = Some false)
      by (unfold js_lt; rewrite Hn; simpl; now rewrite Hlt).
    repeat split; auto.
Qed.

(** X3: the provider is asked only for an amount that passed both checks:
    it is truthy and [amount < 50] is false; for a numeric amount this
    means a number of at least 50. *)
Theorem provider_asked_only_after_checks (req : request) (w : world DB) :
  provider_requests (snd (create_payment_intent req w)) <> provider_requests w ->
  ToBoolean (amount_of req) = true /\
  js_lt (amount_of req) fifty = Some false /\
  (forall n, amount_of req = VNum n -> number_ge n fifty = true).
Proof.
  intros Hasked.
  destruct (create_payment_intent_run req w)
    as [(_ & Heq) | [(_ & _ & Heq) | [(n & _ & _ & _ & Heq)
       | [(n & _ & _ & _ & _ & Heq) | (n & c & Hb & Hn & Hlt & _ & _)]]]];
    try (rewrite Heq in Hasked; now elim Hasked).
  split; [exact Hb|]. split.
  - unfold js_lt. rewrite Hn. simpl. now rewrite Hlt.
  - intros m Hm. rewrite Hm in Hb, Hn. simpl in Hn. injection Hn as ->.
    unfold number_ge, fifty, num_of_Z in *.
    destruct n as [| [|] | q]; simpl in *; try discriminate; auto.
    now rewrite Hlt.
Qed.

(** X4: an amount that is truthy but converts to NaN (a text that is not
    a number, say) is refused by neither check: with a string currency the
    provider is asked, and the amount it is sent is NaN. *)
Theorem nan_amount_reaches_provider (req : request) (w : world DB) (c : string) :
  ToBoolean (amount_of req) = true ->
  ToNumber (amount_of req) = Some NaN ->
  currency_of req = VStr c ->
  exists params,
    provider_requests (snd (create_payment_intent req w))
    = (provider_requests w ++ [params])%list /\
    amount params = NaN.
Proof.
  intros Hb Hn Hc.
  rewrite (create_payment_intent_passed req w NaN c Hb Hn eq_refl Hc).
  unfold provider_outcome. eexists. split.
  - destruct (paymentIntents_create _); reflexivity.
  - reflexivity.
Qed.

(** X5: an amount that cannot be converted to a number (an object with a
    [toString] property) makes the comparison throw: the answer is the
    generic 500, nothing is sent to the provider, and the console gets the
    line of the error only. *)
Theorem unconvertible_amount_answer (req : request) (w : world DB) :
  ToBoolean (amount_of req) = true ->
  ToNumber (amount_of req) = None ->
  create_payment_intent req w =
  (Ok {| status := 500;
         sent := Json (VObj [("error",
                   VStr "An unexpected error occurred. Please try again.")]) |},
   {| console := console w ++
        [Stripe_Error (TypeError (type_error_text "<" (amount_of req)))];
      provider_requests := provider_requests w;
      database := database w |}).
Proof.
  intros Hb Hn. run_payment. rewrite Hb. unfold js_lt. rewrite Hn. reflexivity.
Qed.

(** X6: with an amount that passed both checks, a currency that is
    present but not a string (null, a number, an object) is answered by the
    generic 500: [toLowerCase] throws after the console line of the
    creation and before the provider is asked. *)
Theorem non_string_currency_answer (req : request) (w : world DB) (n : number) :
  ToBoolean (amount_of req) = true ->
  ToNumber (amount_of req) = Some n ->
  number_lt n fifty = false ->
  (forall c, currency_of req <> VStr c) ->
  create_payment_intent req w =
  (Ok {| status := 500;
         sent := Json (VObj [("error",
                   VStr "An unexpected error occurred. Please try again.")]) |},
   {| console := console w ++
        [Creating_payment_intent (amount_of req);
         Stripe_Error (TypeError
           (type_error_text "toLowerCase" (currency_of req)))];
      provider_requests := provider_requests w;
      database := database w |}).
Proof.
  intros Hb Hn Hlt Hcur.
  destruct (create_payment_intent_run req w)
    as [(Hf & _) | [(_ & Hnone & _) | [(m & _ & Hm & Hlt' & _)
       | [(m & _ & _ & _ & _ & Heq) | (m & c & _ & _ & _ & Hc & _)]]]];
    try congruence; try (now elim (Hcur c)).
  exact Heq.
Qed.

End PaymentRuns.

(** ** The request sent to the provider *)

Section ProviderRequest.
Context {DB : Type} {engine : Engine} {stripe : Stripe} {process : Process}.

Lemma at_least_fifty (q : Q) :
  (50 <= q)%Q -> number_ge (Finite q) fifty = true.
Proof.
  intros Hq. unfold number_ge, number_lt, fifty, num_of_Z.
  destruct (q ?= inject_Z 50)%Q eqn:Hc; auto.
  apply Qlt_alt in Hc. now apply Qle_not_lt in Hq.
Qed.

Lemma Qfloor_half_integer (k : Z) : Qfloor (inject_Z k + (1 # 2)) = k.
Proof.
  unfold Qfloor, Qplus, inject_Z. simpl.
  symmetry. apply Z.div_unique with (r := 1%Z); lia.
Qed.

(** X7: a finite amount of at least 50 reaches the provider as an integer
    of at least 50, and an amount that is an integer already is sent as it
    is. *)
Theorem rounded_amount_sent (req : request) (w : world DB) (q : Q) (c : string) :
  amount_of req = VNum (Finite q) ->
  (50 <= q)%Q ->
  currency_of req = VStr c ->
  exists (z : Z) params,
    provider_requests (snd (create_payment_intent req w))
    = (provider_requests w ++ [params])%list /\
    amount params = num_of_Z z /\
    (50 <= z)%Z /\
    (forall k : Z, (q == inject_Z k)%Q -> z = k).
Proof.
  intros Ha Hq Hc.
  assert (Hn : ToNumber (amount_of req) = Some (Finite q)) by now rewrite Ha.
  pose proof (create_payment_intent_valid req w (Finite q) c Hn
                (at_least_fifty q Hq) Hc) as Hrun.
  cbv zeta in Hrun.
  exists (Qfloor (q + (1 # 2))),
         (intent_params (Finite q) (toLowerCase c) (metadata_of req)).
  split; [|split; [|split]].
  - rewrite Hrun. destruct (paymentIntents_create _); reflexivity.
  - reflexivity.
  - change 50%Z with (Qfloor (inject_Z 50)).
    apply Qfloor_resp_le.
    apply Qle_trans with q; [exact Hq|].
    rewrite <- (Qplus_0_r q) at 1. apply Qplus_le_r. discriminate.
  - intros k Hk. rewrite Hk. apply Qfloor_half_integer.
Qed.

Lemma obj_has_set (k k' : string) (v : value) (o : obj) :
  obj_has k (obj_set k' v o) = String.eqb k k' || obj_has k o.
Proof.
  induction o as [|[k0 v0] o IH]; simpl.
  - destruct (String.eqb k k'); reflexivity.
  - destruct (String.eqb_spec k' k0) as [->|Hne]; simpl.
    + destruct (String.eqb k k0); reflexivity.
    + rewrite IH. destruct (String.eqb k k0); [now rewrite orb_true_r|].
      reflexivity.
Qed.

Lemma obj_set_distinct (k : string) (v : value) (o : obj) :
  distinct_keys o = true -> distinct_keys (obj_set k v o) = true.
Proof.
  induction o as [|[k0 v0] o IH]; simpl; auto.
  intros Hd. apply andb_true_iff in Hd as [Hk Hd].
  destruct (String.eqb_spec k k0) as [->|Hne]; simpl.
  - now rewrite Hk, Hd.
  - rewrite obj_has_set, IH by assumption.
    apply negb_true_iff in Hk. rewrite Hk.
    destruct (String.eqb_spec k0 k) as [->|_]; [contradiction|reflexivity].
Qed.

Lemma spread_fold_has (k : string) (props acc : obj) :
  obj_has k (fold_left (fun a kv => obj_set (fst kv) (snd kv) a) props acc)
  = obj_has k acc || obj_has k props.
Proof.
  revert acc. induction props as [|[k0 v0] props IH]; intros acc; simpl.
  - now rewrite orb_false_r.
  - rewrite IH, obj_has_set.
    destruct (String.eqb k k0), (obj_has k acc), (obj_has k props); reflexivity.
Qed.

Lemma spread_fold_distinct_keys (props acc : obj) :
  distinct_keys acc = true ->
  distinct_keys
    (fold_left (fun a kv => obj_set (fst kv) (snd kv) a) props acc) = true.
Proof.
  revert acc. induction props as [|[k0 v0] props IH]; intros acc Hd; simpl; auto.
  apply IH. now apply obj_set_distinct.
Qed.

(** X8: the metadata sent to the provider has the keys of the caller's
    metadata, [source] and [created_at], and no other; no key comes
    twice. *)
Theorem intent_metadata_keys (m : value) (now k : string) :
  (obj_has k (intent_metadata m now) = true <->
   obj_has k (own_props m) = true \/ k = "source" \/ k = "created_at") /\
  distinct_keys (intent_metadata m now) = true.
Proof.
  unfold intent_metadata, spread_into. split.
  - rewrite !obj_has_set, spread_fold_has. simpl.
    destruct (String.eqb_spec k "created_at"), (String.eqb_spec k "source"),
      (obj_has k (own_props m)); simpl; intuition discriminate.
  - do 2 apply obj_set_distinct. now apply spread_fold_distinct_keys.
Qed.

(** X9: a metadata that is present but has no properties to copy (null,
    a boolean, a number) does not fail the request: the provider is asked,
    with the two fields of the server as the whole metadata. *)
Theorem empty_spread_metadata (req : request) (w : world DB) (c : string) :
  js_ge (amount_of req) fifty = Some true ->
  currency_of req = VStr c ->
  own_props (metadata_of req) = [] ->
  exists params,
    provider_requests (snd (create_payment_intent req w))
    = (provider_requests w ++ [params])%list /\
    metadata params = [("source", VStr "modern-ecommerce");
                       ("created_at", VStr Date_toISOString)].
Proof.
  intros Hge Hc Hprops.
  destruct (js_ge_number _ Hge) as (n & Hn & Hn50).
  pose proof (create_payment_intent_valid req w n c Hn Hn50 Hc) as Hrun.
  cbv zeta in Hrun.
  exists (intent_params n (toLowerCase c) (metadata_of req)). split.
  - rewrite Hrun. destruct (paymentIntents_create _); reflexivity.
  - simpl. unfold intent_metadata, spread_into. rewrite Hprops. reflexivity.
Qed.

(** X10: of the errors of the provider only a card error shows its
    message to the client: for any other type the answer is the same
    whatever the message. *)
Theorem only_card_error_shows_message (e : error_obj) (message : option string) :
  err_type e <> Some "StripeCardError" ->
  stripe_error_response e =
  stripe_error_response {| err_type := err_type e; err_message := message |}.
Proof.
  intros Hcard. unfold stripe_error_response, type_is. simpl.
  destruct (err_type e) as [t|]; [|reflexivity].
  destruct (String.eqb_spec t "StripeCardError") as [->|_]; [congruence|].
  reflexivity.
Qed.

(** X11: a card error without a message is answered 400 with an empty
    JSON object: the [error] field, being undefined, is left out. *)
Theorem card_error_without_message (e : error_obj) :
  err_type e = Some "StripeCardError" ->
  err_message e = None ->
  stripe_error_response e = {| status := 400; sent := Json (VObj []) |}.
Proof.
  intros Ht Hm. unfold stripe_error_response, type_is.
  rewrite Ht, Hm. reflexivity.
Qed.

End ProviderRequest.

(** ** The webhook, whatever the verification says *)

Section WebhookRuns.
Context {DB : Type} {engine : Engine} {stripe : Stripe} {process : Process}.

(** X12: the secret handed to the verification is never empty: it is
    STRIPE_WEBHOOK_SECRET when this is set and not empty, and the
    placeholder "whsec_test_..." otherwise. *)
Theorem endpointSecret_fallback :
  endpointSecret <> "" /\
  (forall s, getenv "STRIPE_WEBHOOK_SECRET" = Some s -> s <> "" ->
     endpointSecret = s) /\
  (getenv "STRIPE_WEBHOOK_SECRET" = None \/
   getenv "STRIPE_WEBHOOK_SECRET" = Some "" ->
     endpointSecret = "whsec_test_...").
Proof.
  unfold endpointSecret.
  destruct (getenv "STRIPE_WEBHOOK_SECRET") as [s|].
  - destruct (String.eqb_spec s "") as [->|Hne].
    + repeat split; try discriminate. intros t [= <-] Ht. now elim Ht.
    + repeat split; auto.
      * intros t [= <-] _. reflexivity.
      * intros [H|[= ->]]; [discriminate | now elim Hne].
  - repeat split; discriminate.
Qed.

Lemma handle_event_outcome (event : value) (w : world DB) :
  (exists l, handle_event event w = (Ok tt, logged w [l])) \/
  (exists e, handle_event event w = (Throw e, w)).
Proof.
  unfold handle_event, bind, js_eval, throw, ret, console_write, logged.
  destruct (get_prop event "type") as [type|]; [|right; eauto].
  destruct (is_str type "payment_intent.succeeded").
  { destruct (event_object event) as [object|]; [|right; eauto].
    destruct (id_text object) as [id|]; [|right; eauto].
    destruct (amount_number object) as [a|]; [|right; eauto].
    left; eauto. }
  destruct (is_str type "payment_intent.payment_failed").
  { destruct (event_object event) as [object|]; [|right; eauto].
    destruct (id_text object) as [id|]; [|right; eauto].
    left; eauto. }
  destruct (is_str type "payment_method.attached").
  { destruct (event_object event) as [object|]; [|right; eauto].
    destruct (id_text object) as [id|]; [|right; eauto].
    left; eauto. }
  destruct (type_text event) as [text|]; [left | right]; eauto.
Qed.

(** X13: whatever the verification and the event, the webhook sends
    nothing to the provider, leaves the database as it was, and adds one or
    two console lines.  When it answers, the status is 400 or 200, and 200
    only for a verified event; when it leaves the request unanswered (the
    switch threw), the event was verified and only its receipt was
    logged. *)
Theorem webhook_frame (req : request) (w : world DB) :
  exists out lines,
    webhook req w = (out, logged w lines) /\
    1 <= length lines <= 2 /\
    (forall r, out = Ok r ->
       status r = 400 \/
       (status r = 200 /\ exists event, verification req = inr event)) /\
    (forall e, out = Throw e ->
       exists event text,
         verification req = inr event /\ type_text event = Some text /\
         lines = [Webhook_received text]).
Proof.
  unfold webhook, try_catch, bind, stripe_constructEvent.
  fold (verification req).
  destruct (verification req) as [err|event] eqn:Hv.
  { do 2 eexists. split; [reflexivity|]. simpl. split; [lia|].
    split; [intros r [= <-]; now left | discriminate]. }
  unfold ret at 1. unfold js_eval.
  destruct (type_text event) as [text|] eqn:Htext.
  2:{ do 2 eexists. split; [reflexivity|]. simpl. split; [lia|].
      split; [intros r [= <-]; now left | discriminate]. }
  unfold ret at 1. unfold console_write at 1. simpl.
  destruct (handle_event_outcome event
              {| console := console w ++ [Webhook_received text];
                 provider_requests := provider_requests w;
                 database := database w |}) as [(l & Hl) | (e & He)].
  - rewrite Hl. unfold logged, ret. simpl. rewrite <- app_assoc.
    do 2 eexists. split; [reflexivity|]. simpl. split; [lia|].
    split; [intros r [= <-]; right; eauto | discriminate].
  - rewrite He.
    do 2 eexists. split; [reflexivity|]. simpl. split; [lia|].
    split; [discriminate|]. intros e' _. eauto.
Qed.


End WebhookRuns.

(** ** Requests through the servers *)

Section ServerRuns.
Context {DB : Type} {engine : Engine} {stripe : Stripe} {process : Process}
        {library : Library DB} {auth : AuthModules DB} {matching : Matching}.

Lemma create_payment_intent_ok (req : request) (w : world DB) :
  exists r w', create_payment_intent req w = (Ok r, w').
Proof.
  destruct (create_payment_intent_run req w)
    as [(_ & ->) | [(_ & _ & ->) | [(n & _ & _ & _ & ->)
       | [(n & _ & _ & _ & _ & ->) | (n & c & _ & _ & _ & _ & ->)]]]];
    eauto.
  unfold provider_outcome. destruct (paymentIntents_create _); eauto.
Qed.

Lemma error_middleware_run (e : error_obj) (req : request) (w : world DB) :
  exists r,
    error_middleware e req w = (Ok r, logged w [Server_Error e]) /\
    status r = 500.
Proof.
  unfold error_middleware, bind, console_write, ret, logged. simpl.
  eexists. split; reflexivity.
Qed.

Lemma auth_mount_pass (req : request) (w : world DB) (tr : list string) :
  layer_has_route (Mount "/api/auth" authRoutes) req = false ->
  run_layer (Mount "/api/auth" authRoutes) (Travelling None req w tr)
  = Travelling None req w tr.
Proof.
  intros Hnone. cbn [layer_has_route] in Hnone. cbn [run_layer].
  destruct (mount_matches "/api/auth" req) as [inner|]; [|reflexivity].
  unfold authRoutes in Hnone. cbn [layer_has_route] in Hnone.
  rewrite orb_false_r in Hnone.
  apply orb_false_iff in Hnone as [Hsignup Hnone].
  apply orb_false_iff in Hnone as [Hsignin Hme].
  fold (@dispatch DB matching).
  rewrite (authRoutes_pass _ _ _ Hsignup Hsignin Hme).
  now rewrite with_path_restore.
Qed.

(** X15: on the server with the webhook, a request the POST /webhook
    route takes, and that [cors()], [express.json()] and [express.raw()]
    pass on, goes to the webhook handler with what [express.raw()] passed
    on, and to no other handler: the outcome is the handler's answer, or no
    answer when the handler throws. *)
Theorem webhook_route_run
    (req req1 req2 req3 : request) (w w1 w2 w3 : world DB) :
  cors req w = (Next req1, w1) ->
  express_json req1 w1 = (Next req2, w2) ->
  route_matches "GET" "/" req2 = false ->
  route_matches "POST" "/create-payment-intent" req2 = false ->
  route_matches "POST" "/webhook" req2 = true ->
  express_raw req2 w2 = (Next req3, w3) ->
  exists out w',
    webhook req3 w3 = (out, w') /\
    handle webhook_app req w =
    Finished (match out with Ok r => Some r | Throw _ => None end) w'
      ["cors"; "express.json"; "express.raw"; "webhook"].
Proof.
  intros Hcors Hjson Hhealth Hpay Hhook Hraw.
  destruct (webhook req3 w3) as [out w'] eqn:Hrun.
  exists out, w'. split; [reflexivity|].
  unfold handle, webhook_app.
  cbn [dispatch run_layer name run after_step app_nil_l].
  rewrite Hcors. cbn [after_step run_layer name run].
  rewrite Hjson. cbn [after_step run_layer].
  rewrite Hhealth, Hpay, Hhook. cbn [run_chain name run].
  rewrite Hraw. cbn [after_step]. unfold answering. rewrite Hrun.
  destruct out; reflexivity.
Qed.

(** X16: when [express.json()] passes an error on (a body that is not
    JSON), no route handler runs, whatever the path, and the 404 handler
    does not run either: both servers answer 500 from the error-handling
    middleware, which writes the error on the console. *)
Theorem parser_error_answer
    (req req1 req2 : request) (w w1 w2 : world DB) (e : error_obj) :
  cors req w = (Next req1, w1) ->
  express_json req1 w1 = (NextError e req2, w2) ->
  exists r,
    status r = 500 /\
    handle app req w =
    Finished (Some r) (logged w2 [Server_Error e])
      ["cors"; "express.json"; "error"] /\
    handle webhook_app req w =
    Finished (Some r) (logged w2 [Server_Error e])
      ["cors"; "express.json"; "error"].
Proof.
  intros Hcors Hjson.
  destruct (error_middleware_run e req2 w2) as (r & Hrun & Hstatus).
  exists r. split; [exact Hstatus|].
  unfold handle, app, webhook_app, error_layer.
  cbn [dispatch run_layer name run after_step app_nil_l].
  rewrite Hcors. cbn [after_step run_layer name run].
  rewrite Hjson. cbn [after_step run_layer].
  unfold answering. rewrite Hrun. split; reflexivity.
Qed.

(** X17: when [protect] passes an error to [next] on a request for
    GET /api/auth/me, [getMe] does not run and the answer is the 500 of the
    error-handling middleware, not an authentication status. *)
Theorem protect_error_answer
    (req req1 req2 guarded : request) (w w1 w2 w3 : world DB)
    (inner : string) (e : error_obj) :
  cors req w = (Next req1, w1) ->
  express_json req1 w1 = (Next req2, w2) ->
  mount_matches "/api/auth" req2 = Some inner ->
  route_matches "POST" "/signup" (with_path inner req2) = false ->
  route_matches "POST" "/signin" (with_path inner req2) = false ->
  route_matches "GET" "/me" (with_path inner req2) = true ->
  protect (with_path inner req2) w2 = (NextError e guarded, w3) ->
  exists r,
    status r = 500 /\
    handle app req w =
    Finished (Some r) (logged w3 [Server_Error e])
      ["cors"; "express.json"; "protect"; "error"].
Proof.
  intros Hcors Hjson Hmount Hsignup Hsignin Hme Hp.
  destruct (error_middleware_run e (with_path (path req2) guarded) w3)
    as (r & Hrun & Hstatus).
  exists r. split; [exact Hstatus|].
  unfold handle, app, error_layer.
  cbn [dispatch run_layer name run after_step app_nil_l].
  rewrite Hcors. cbn [after_step run_layer name run].
  rewrite Hjson. cbn [after_step run_layer].
  rewrite Hmount. unfold authRoutes. cbn -[error_middleware with_path].
  rewrite Hsignup, Hsignin, Hme. cbn -[error_middleware with_path].
  rewrite Hp. cbn -[error_middleware with_path].
  unfold answering. rewrite Hrun. reflexivity.
Qed.

Lemma run_chain_extends (hs : list (@named DB)) (req : request)
    (w : world DB) (tr : list string) :
  exists rest, invoked_of (run_chain hs req w tr) = (tr ++ rest)%list.
Proof.
  revert req w tr. induction hs as [|h hs IH]; intros req w tr; simpl.
  - exists []. now rewrite app_nil_r.
  - destruct (run h req w) as [[req1 | e req1 | r |] w1]; simpl;
      try (eexists; reflexivity).
    destruct (IH req1 w1 (tr ++ [name h])%list) as (rest & ->).
    rewrite <- app_assoc. eexists; reflexivity.
Qed.

Lemma route_extends (m p : string) (hs : list (@named DB)) (f : flow) :
  exists rest,
    invoked_of (run_layer (Route m p hs) f) = (invoked_of f ++ rest)%list.
Proof.
  destruct f as [[e|] req w tr | r w tr]; simpl;
    try (exists []; now rewrite app_nil_r).
  destruct (route_matches m p req).
  - apply run_chain_extends.
  - exists []. simpl. now rewrite app_nil_r.
Qed.

(** X18: the signup route has no guard: on a request it takes, the router
    invokes [signup] first, and when [signup] answers, [protect] has not
    been invoked. *)
Theorem signup_not_guarded (req : request) (w : world DB) :
  route_matches "POST" "/signup" req = true ->
  let f := dispatch authRoutes (Travelling None req w []) in
  (exists rest, invoked_of f = "signup" :: rest) /\
  (forall s w', signup req w = (s, w') -> (forall r, s <> Next r) ->
     f = after_step (s, w') ["signup"] /\ ~ In "protect" (invoked_of f)).
Proof.
  intros Hsignup. unfold authRoutes.
  cbn [dispatch]. split.
  - destruct (route_extends "GET" "/me"
                [ {| name := "protect"; run := protect |};
                  {| name := "getMe"; run := getMe |} ]
                (run_layer (Route "POST" "/signin"
                              [ {| name := "signin"; run := signin |} ])
                   (run_layer (Route "POST" "/signup"
                                 [ {| name := "signup"; run := signup |} ])
                      (Travelling None req w [])))) as (r2 & ->).
    destruct (route_extends "POST" "/signin"
                [ {| name := "signin"; run := signin |} ]
                (run_layer (Route "POST" "/signup"
                              [ {| name := "signup"; run := signup |} ])
                   (Travelling None req w []))) as (r1 & ->).
    cbn [run_layer]. rewrite Hsignup. cbn [run_chain name run app].
    destruct (signup req w) as [[req1 | e req1 | r |] w1]; simpl; eauto.
  - intros s w' Hs Hnot.
    cbn [run_layer]. rewrite Hsignup. cbn [run_chain name run app].
    rewrite Hs.
    destruct s as [req1 | e req1 | r |]; [now elim (Hnot req1) | | |]; simpl;
      (split; [reflexivity|]; intros [H|[]]; discriminate).
Qed.

Lemma dispatch_cons (l : @layer DB) (ls : list layer) (f : flow) :
  dispatch (l :: ls) f = dispatch ls (run_layer l f).
Proof. reflexivity. Qed.

Lemma run_use (h : @named DB) (req : request) (w : world DB)
    (tr : list string) :
  run_layer (Use h) (Travelling None req w tr)
  = after_step (run h req w) (tr ++ [name h]).
Proof. reflexivity. Qed.

Lemma run_route (m p : string) (hs : list (@named DB)) (req : request)
    (w : world DB) (tr : list string) :
  run_layer (Route m p hs) (Travelling None req w tr)
  = if route_matches m p req then run_chain hs req w tr
    else Travelling None req w tr.
Proof. reflexivity. Qed.

Lemma run_layer_finished (l : @layer DB) (r : option response)
    (w : world DB) (tr : list string) :
  run_layer l (Finished r w tr) = Finished r w tr.
Proof. destruct l; reflexivity. Qed.

(** X19: a request that [cors()] and [express.json()] pass on and that
    only the POST /create-payment-intent route takes is always answered,
    by the payment handler alone: neither the error-handling middleware
    nor the 404 handler runs, whatever the body and the provider do. *)
Theorem payment_route_run (req req1 req2 : request) (w w1 w2 : world DB) :
  cors req w = (Next req1, w1) ->
  express_json req1 w1 = (Next req2, w2) ->
  layer_has_route (Mount "/api/auth" authRoutes) req2 = false ->
  route_matches "GET" "/" req2 = false ->
  route_matches "POST" "/create-payment-intent" req2 = true ->
  exists r w',
    create_payment_intent req2 w2 = (Ok r, w') /\
    handle app req w =
    Finished (Some r) w' ["cors"; "express.json"; "create-payment-intent"].
Proof.
  intros Hcors Hjson Hauth Hhealth Hpay.
  destruct (create_payment_intent_ok req2 w2) as (r & w' & Hrun).
  exists r, w'. split; [exact Hrun|].
  unfold handle, app. rewrite !dispatch_cons.
  rewrite run_use. cbn [name run]. rewrite Hcors. cbn [after_step].
  rewrite run_use. cbn [name run]. rewrite Hjson. cbn [after_step].
  rewrite (auth_mount_pass _ _ _ Hauth).
  rewrite run_route, Hhealth, run_route, Hpay. cbn [run_chain name run].
  unfold answering. rewrite Hrun. cbn [after_step].
  rewrite !run_layer_finished. reflexivity.
Qed.

(** X20: a request that [cors()] and [express.json()] pass on and that
    only the GET / route takes is answered 200 with the server's message,
    the time of the clock and the list of endpoints, and nothing is
    written, sent or stored. *)
Theorem health_route_run (req req1 req2 : request) (w w1 w2 : world DB) :
  cors req w = (Next req1, w1) ->
  express_json req1 w1 = (Next req2, w2) ->
  layer_has_route (Mount "/api/auth" authRoutes) req2 = false ->
  route_matches "GET" "/" req2 = true ->
  exists o,
    handle app req w =
    Finished (Some {| status := 200; sent := Json (VObj o) |}) w2
      ["cors"; "express.json"; "health"] /\
    obj_get "message" o
    = VStr "Modern E-commerce Stripe Payment Server is running!" /\
    obj_get "timestamp" o = VStr Date_toISOString /\
    obj_get "endpoints" o =
    VObj [("health", VStr "GET /");
          ("createPayment", VStr "POST /create-payment-intent");
          ("auth", VObj [("signup", VStr "POST /api/auth/signup");
                         ("signin", VStr "POST /api/auth/signin");
                         ("getMe", VStr "GET /api/auth/me")])].
Proof.
  intros Hcors Hjson Hauth Hhealth.
  eexists. split; [|split; [|split]].
  - unfold handle, app. rewrite !dispatch_cons.
    rewrite run_use. cbn [name run]. rewrite Hcors. cbn [after_step].
    rewrite run_use. cbn [name run]. rewrite Hjson. cbn [after_step].
    rewrite (auth_mount_pass _ _ _ Hauth).
    rewrite run_route, Hhealth. cbn [run_chain name run].
    unfold answering, health, ret. cbn [after_step].
    rewrite !run_layer_finished. reflexivity.
  - reflexivity.
  - reflexivity.
  - reflexivity.
Qed.

(** X21: every route the server with the auth routes registers is in the
    list its 404 answer gives, but the list also names POST /webhook, which
    that server does not register; on the server with the webhook the list
    is exactly the registered routes. *)
Theorem advertised_endpoints :
  routes_of app =
    ["POST /api/auth/signup"; "POST /api/auth/signin"; "GET /api/auth/me";
     "GET /"; "POST /create-payment-intent"] /\
  (forall e, In e (routes_of app) -> In e availableEndpoints) /\
  In "POST /webhook" availableEndpoints /\
  ~ In "POST /webhook" (routes_of app) /\
  routes_of webhook_app = webhook_availableEndpoints.
Proof.
  split; [reflexivity|]. split; [|split; [|split]].
  - intros e He. cbn in He. cbn. tauto.
  - cbn. tauto.
  - cbn. intros H. repeat destruct H as [H|H]; try discriminate H. exact H.
  - reflexivity.
Qed.

End ServerRuns.

(** ** The further properties on concrete requests *)

Section FurtherExamples.
Import Sample.

(** The order of 100.5 cents is answered 200 from the created intent. *)
Lemma ok_answer_means_created_order :
  let r := {| status := 200;
              sent := Json (VObj [("clientSecret", VStr "pi_1_secret_a");
                                  ("paymentIntentId", VStr "pi_1")]) |} in
  (fst (create_payment_intent order_request w0) = Ok r /\ status r = 200) /\
  exists n c,
    ToBoolean (amount_of order_request) = true /\
    ToNumber (amount_of order_request) = Some n /\
    number_lt n fifty = false /\
    currency_of order_request = VStr c /\
    paymentIntents_create
      (intent_params n (toLowerCase c) (metadata_of order_request)) = inr intent.
Proof.
  intros r.
  assert (Hrun : fst (create_payment_intent order_request w0) = Ok r)
    by reflexivity.
  assert (Hok : status r = 200) by reflexivity.
  split; [split; assumption|].
  destruct (ok_answer_means_created order_request w0 r Hrun Hok)
    as (n & c & i & Hb & Hn & Hlt & _ & Hc & _).
  exists n, c. repeat split; assumption.
Defined.

Lemma provider_asked_only_after_checks_order :
  provider_requests (snd (create_payment_intent order_request w0))
  <> provider_requests w0 /\
  ToBoolean (amount_of order_request) = true /\
  js_lt (amount_of order_request) fifty = Some false.
Proof.
  assert (Hasked : provider_requests (snd (create_payment_intent order_request w0))
                   <> provider_requests w0) by (vm_compute; discriminate).
  split; [exact Hasked|].
  destruct (provider_asked_only_after_checks order_request w0 Hasked)
    as (Hb & Hlt & _).
  split; assumption.
Defined.

(** The amount "abc". *)
Lemma nan_amount_reaches_provider_text :
  let req := pay [("amount", VStr "abc")] in
  (ToBoolean (amount_of req) = true /\
   ToNumber (amount_of req) = Some NaN /\
   currency_of req = VStr "usd") /\
  exists params,
    provider_requests (snd (create_payment_intent req w0)) = [params] /\
    amount params = NaN.
Proof.
  intros req.
  assert (Hb : ToBoolean (amount_of req) = true) by reflexivity.
  assert (Hn : ToNumber (amount_of req) = Some NaN) by reflexivity.
  assert (Hc : currency_of req = VStr "usd") by reflexivity.
  split; [repeat split; assumption|].
  apply (nan_amount_reaches_provider req w0 "usd" Hb Hn Hc).
Defined.

(** The amount [{toString: null}]. *)
Lemma unconvertible_amount_answer_object :
  let req := pay [("amount", VObj [("toString", VNull)])] in
  (ToBoolean (amount_of req) = true /\ ToNumber (amount_of req) = None) /\
  fst (create_payment_intent req w0) = Ok unexpected /\
  provider_requests (snd (create_payment_intent req w0)) = [].
Proof.
  intros req.
  assert (Hb : ToBoolean (amount_of req) = true) by reflexivity.
  assert (Hn : ToNumber (amount_of req) = None) by reflexivity.
  split; [split; assumption|].
  rewrite (unconvertible_amount_answer req w0 Hb Hn). split; reflexivity.
Defined.

(** The currency 840. *)
Lemma non_string_currency_answer_number :
  let req := pay [("amount", num 100); ("currency", num 840)] in
  (ToBoolean (amount_of req) = true /\
   ToNumber (amount_of req) = Some (num_of_Z 100) /\
   number_lt (num_of_Z 100) fifty = false /\
   forall c, currency_of req <> VStr c) /\
  fst (create_payment_intent req w0) = Ok unexpected /\
  provider_requests (snd (create_payment_intent req w0)) = [].
Proof.
  intros req.
  assert (Hb : ToBoolean (amount_of req) = true) by reflexivity.
  assert (Hn : ToNumber (amount_of req) = Some (num_of_Z 100)) by reflexivity.
  assert (Hlt : number_lt (num_of_Z 100) fifty = false) by reflexivity.
  assert (Hc : forall c, currency_of req <> VStr c) by (intros c; discriminate).
  split; [repeat split; assumption|].
  rewrite (non_string_currency_answer req w0 (num_of_Z 100) Hb Hn Hlt Hc).
  split; reflexivity.
Defined.

(** Twenty dollars, in cents. *)
Lemma rounded_amount_sent_2000 :
  let req := pay [("amount", num 2000)] in
  (amount_of req = VNum (Finite (inject_Z 2000)) /\
   (50 <= inject_Z 2000)%Q /\
   currency_of req = VStr "usd") /\
  exists params,
    provider_requests (snd (create_payment_intent req w0)) = [params] /\
    amount params = num_of_Z 2000.
Proof.
  intros req.
  assert (Ha : amount_of req = VNum (Finite (inject_Z 2000))) by reflexivity.
  assert (Hq : (50 <= inject_Z 2000)%Q) by discriminate.
  assert (Hc : currency_of req = VStr "usd") by reflexivity.
  split; [repeat split; assumption|].
  destruct (rounded_amount_sent req w0 (inject_Z 2000) "usd" Ha Hq Hc)
    as (z & params & Hsent & Hamount & _ & Hint).
  exists params. split; [exact Hsent|].
  rewrite Hamount, (Hint 2000%Z (Qeq_refl _)). reflexivity.
Defined.

(** The metadata null. *)
Lemma empty_spread_metadata_null :
  let req := pay [("amount", num 100); ("metadata", VNull)] in
  (js_ge (amount_of req) fifty = Some true /\
   currency_of req = VStr "usd" /\
   own_props (metadata_of req) = []) /\
  exists params,
    provider_requests (snd (create_payment_intent req w0)) = [params] /\
    metadata params = [("source", VStr "modern-ecommerce");
                       ("created_at", VStr "2024-01-01T00:00:00.000Z")].
Proof.
  intros req.
  assert (Hge : js_ge (amount_of req) fifty = Some true) by reflexivity.
  assert (Hc : currency_of req = VStr "usd") by reflexivity.
  assert (Hm : own_props (metadata_of req) = []) by reflexivity.
  split; [repeat split; assumption|].
  destruct (empty_spread_metadata req w0 "usd" Hge Hc Hm)
    as (params & Hsent & Hmeta).
  exists params. split; [exact Hsent | exact Hmeta].
Defined.

(** A rate-limit error, with and without its message. *)
Lemma only_card_error_shows_message_rate_limit :
  let e := {| err_type := Some "StripeRateLimitError";
              err_message := Some "Too many requests hit the API" |} in
  err_type e <> Some "StripeCardError" /\
  stripe_error_response e =
  stripe_error_response {| err_type := Some "StripeRateLimitError";
                           err_message := None |}.
Proof.
  intros e.
  assert (Hne : err_type e <> Some "StripeCardError") by discriminate.
  split; [exact Hne|].
  apply (only_card_error_shows_message e None Hne).
Defined.

Lemma card_error_without_message_bare :
  let e := {| err_type := Some "StripeCardError"; err_message := None |} in
  (err_type e = Some "StripeCardError" /\ err_message e = None) /\
  stripe_error_response e = {| status := 400; sent := Json (VObj []) |}.
Proof.
  intros e. split; [split; reflexivity|].
  apply (card_error_without_message e); reflexivity.
Defined.

(** A signed event posted to the server with the webhook. *)
Lemma webhook_route_run_signed :
  let req := post "/webhook" [("stripe-signature", VStr "t=1,v1=ok")]
                  succeeded_event in
  (cors req w0 = (Next req, w0) /\
   express_json req w0 = (Next req, w0) /\
   route_matches "GET" "/" req = false /\
   route_matches "POST" "/create-payment-intent" req = false /\
   route_matches "POST" "/webhook" req = true /\
   express_raw req w0 = (Next req, w0)) /\
  exists out w',
    webhook req w0 = (out, w') /\
    handle webhook_app req w0 =
    Finished (match out with Ok r => Some r | Throw _ => None end) w'
      ["cors"; "express.json"; "express.raw"; "webhook"].
Proof.
  intros req.
  assert (H1 : cors req w0 = (Next req, w0)) by reflexivity.
  assert (H2 : express_json req w0 = (Next req, w0)) by reflexivity.
  assert (H3 : route_matches "GET" "/" req = false) by reflexivity.
  assert (H4 : route_matches "POST" "/create-payment-intent" req = false)
    by reflexivity.
  assert (H5 : route_matches "POST" "/webhook" req = true) by reflexivity.
  assert (H6 : express_raw req w0 = (Next req, w0)) by reflexivity.
  split; [repeat split; assumption|].
  apply (webhook_route_run req req req req w0 w0 w0 w0 H1 H2 H3 H4 H5 H6).
Defined.

(** A body that is not JSON, posted to a path without a route. *)
Lemma parser_error_answer_nope :
  let req := post "/nope" [] [] in
  (@cors unit library_failing req w0 = (Next req, w0) /\
   @express_json unit library_failing req w0 = (NextError parse_failed req, w0)) /\
  exists r,
    status r = 500 /\
    @handle unit matching (@app unit engine stripe_ok process library_failing auth)
      req w0 =
    Finished (Some r) (logged w0 [Server_Error parse_failed])
      ["cors"; "express.json"; "error"].
Proof.
  intros req.
  assert (H1 : @cors unit library_failing req w0 = (Next req, w0))
    by reflexivity.
  assert (H2 : @express_json unit library_failing req w0
               = (NextError parse_failed req, w0)) by reflexivity.
  split; [split; assumption|].
  destruct (@parser_error_answer unit engine stripe_ok process library_failing
              auth matching req req req w0 w0 w0 parse_failed H1 H2)
    as (r & Hstatus & Happ & _).
  exists r. split; assumption.
Defined.

(** GET /api/auth/me under a guard that passes an error on. *)
Lemma protect_error_answer_expired :
  let req := get "/api/auth/me" in
  (cors req w0 = (Next req, w0) /\
   express_json req w0 = (Next req, w0) /\
   mount_matches "/api/auth" req = Some "/me" /\
   route_matches "POST" "/signup" (with_path "/me" req) = false /\
   route_matches "POST" "/signin" (with_path "/me" req) = false /\
   route_matches "GET" "/me" (with_path "/me" req) = true /\
   @protect unit auth_failing (with_path "/me" req) w0
   = (NextError token_expired (with_path "/me" req), w0)) /\
  exists r,
    status r = 500 /\
    @handle unit matching (@app unit engine stripe_ok process library auth_failing)
      req w0 =
    Finished (Some r) (logged w0 [Server_Error token_expired])
      ["cors"; "express.json"; "protect"; "error"].
Proof.
  intros req.
  assert (H1 : cors req w0 = (Next req, w0)) by reflexivity.
  assert (H2 : express_json req w0 = (Next req, w0)) by reflexivity.
  assert (H3 : mount_matches "/api/auth" req = Some "/me") by reflexivity.
  assert (H4 : route_matches "POST" "/signup" (with_path "/me" req) = false)
    by reflexivity.
  assert (H5 : route_matches "POST" "/signin" (with_path "/me" req) = false)
    by reflexivity.
  assert (H6 : route_matches "GET" "/me" (with_path "/me" req) = true)
    by reflexivity.
  assert (H7 : @protect unit auth_failing (with_path "/me" req) w0
               = (NextError token_expired (with_path "/me" req), w0))
    by reflexivity.
  split; [repeat split; assumption|].
  apply (@protect_error_answer unit engine stripe_ok process library
           auth_failing matching req req req (with_path "/me" req)
           w0 w0 w0 w0 "/me" token_expired H1 H2 H3 H4 H5 H6 H7).
Defined.

(** POST /signup, as the router sees it. *)
Lemma signup_not_guarded_post :
  let req := post "/signup" [] [] in
  let f := dispatch authRoutes (Travelling None req w0 []) in
  route_matches "POST" "/signup" req = true /\
  f = Finished (Some (res_json 201 (VObj []))) w0 ["signup"] /\
  ~ In "protect" (invoked_of f).
Proof.
  intros req f.
  assert (Hm : route_matches "POST" "/signup" req = true) by reflexivity.
  split; [exact Hm|].
  destruct (signup_not_guarded req w0 Hm) as (_ & Hanswer).
  apply (Hanswer (Reply (res_json 201 (VObj []))) w0);
    [reflexivity | discriminate].
Defined.

(** A payment of 49 cents through the server. *)
Lemma payment_route_run_49 :
  let req := pay [("amount", num 49)] in
  (cors req w0 = (Next req, w0) /\
   express_json req w0 = (Next req, w0) /\
   layer_has_route (Mount "/api/auth" authRoutes) req = false /\
   route_matches "GET" "/" req = false /\
   route_matches "POST" "/create-payment-intent" req = true) /\
  exists r w',
    create_payment_intent req w0 = (Ok r, w') /\
    handle app req w0 =
    Finished (Some r) w' ["cors"; "express.json"; "create-payment-intent"].
Proof.
  intros req.
  assert (H1 : cors req w0 = (Next req, w0)) by reflexivity.
  assert (H2 : express_json req w0 = (Next req, w0)) by reflexivity.
  assert (H3 : layer_has_route (Mount "/api/auth" authRoutes) req = false)
    by reflexivity.
  assert (H4 : route_matches "GET" "/" req = false) by reflexivity.
  assert (H5 : route_matches "POST" "/create-payment-intent" req = true)
    by reflexivity.
  split; [repeat split; assumption|].
  apply (payment_route_run req req req w0 w0 w0 H1 H2 H3 H4 H5).
Defined.

(** GET / through the server. *)
Lemma health_route_run_root :
  let req := get "/" in
  (cors req w0 = (Next req, w0) /\
   express_json req w0 = (Next req, w0) /\
   layer_has_route (Mount "/api/auth" authRoutes) req = false /\
   route_matches "GET" "/" req = true) /\
  exists o,
    handle app req w0 =
    Finished (Some {| status := 200; sent := Json (VObj o) |}) w0
      ["cors"; "express.json"; "health"] /\
    obj_get "timestamp" o = VStr "2024-01-01T00:00:00.000Z".
Proof.
  intros req.
  assert (H1 : cors req w0 = (Next req, w0)) by reflexivity.
  assert (H2 : express_json req w0 = (Next req, w0)) by reflexivity.
  assert (H3 : layer_has_route (Mount "/api/auth" authRoutes) req = false)
    by reflexivity.
  assert (H4 : route_matches "GET" "/" req = true) by reflexivity.
  split; [repeat split; assumption|].
  destruct (health_route_run req req req w0 w0 w0 H1 H2 H3 H4)
    as (o & Hrun & _ & Htime & _).
  exists o. split; assumption.
Defined.

End FurtherExamples.
